(** * The kernel-status item of the status bar (src/defaults/kernelStatus.tsx)

    A shallow embedding of the [KernelStatus] widget and of its view model
    [KernelStatus.Model], with the host objects they talk to:

    - client sessions are host objects with identity; they live in a store
      indexed by session identities, every identity denoting an object (a
      TypeScript reference never dangles);
    - a Phosphor signal keeps the connections made on it; connecting a slot
      that is already connected does nothing, disconnecting removes it.  Only
      membership matters to the widget, so the connections are a finite set;
    - the calls the code makes on its surroundings ([connect], [disconnect],
      [stateChanged.emit]) are recorded, in program order, in a trace, and
      so is every run of a slot of the model by a session signal;
    - [String.prototype.toLowerCase] is the runtime's: the code is embedded
      for any such function, and run on the one that lowers ASCII letters.  *)

From stdpp Require Import base decidable countable gmap strings list functions.
From Stdlib Require Import String Ascii NArith.

Open Scope string_scope.
Open Scope list_scope.

(** ** Host objects *)

(** Identity of an [IClientSession] object. *)
Definition sid := nat.

(** The slots that may be connected to a session's signals: the two arrow
    functions of the model, and the listeners of other components. *)
Inductive Slot :=
| OnKernelStatusChanged
| OnKernelChanged
| Foreign (n : nat).

#[global] Instance Slot_eq_dec : EqDecision Slot.
Proof. solve_decision. Defined.

#[global] Instance Slot_countable : Countable Slot.
Proof.
  refine (inj_countable'
    (fun s => match s with
              | OnKernelStatusChanged => inl false
              | OnKernelChanged => inl true
              | Foreign n => inr n
              end)
    (fun c => match c with
              | inl false => OnKernelStatusChanged
              | inl true => OnKernelChanged
              | inr n => Foreign n
              end) _).
  intros []; reflexivity.
Defined.

(** [ISignal.connect] and [ISignal.disconnect] of @phosphor/signaling, on the
    set of slots connected to one signal. *)
Module Signal.
Definition connect (slot : Slot) (receivers : gset Slot) : gset Slot :=
  receivers ∪ {[ slot ]}.

Definition disconnect (slot : Slot) (receivers : gset Slot) : gset Slot :=
  receivers ∖ {[ slot ]}.
End Signal.

(** The members of [IClientSession] the widget reads. *)
Module IClientSession.
Record t := mk {
  status : string;
  kernelDisplayName : string;
  type : string;
  statusChanged : gset Slot;
  kernelChanged : gset Slot
}.
End IClientSession.

(** [Kernel.IKernelConnection], as far as [_onKernelChanged] reads it. *)
Module Kernel.
Record IModel := { name : string }.
Record IKernelConnection := { status : string; model : IModel }.
End Kernel.

(** The two signals of a session the model listens to. *)
Inductive SignalName := StatusChanged | KernelChanged.

(** What the code does to its surroundings, [Disconnect], [Connect] and
    [StateChangedEmit], and what the host does to the code: with [Invoke] a
    signal of session [s] runs a slot of the model. *)
Inductive Effect :=
| Disconnect (s : sid) (sig : SignalName) (slot : Slot)
| Connect (s : sid) (sig : SignalName) (slot : Slot)
| Invoke (s : sid) (slot : Slot)
| StateChangedEmit.

#[global] Instance SignalName_eq_dec : EqDecision SignalName.
Proof. solve_decision. Defined.

#[global] Instance Effect_eq_dec : EqDecision Effect.
Proof. solve_decision. Defined.

(** ** Strings *)

(** [String.prototype.toLowerCase] is the JavaScript runtime's and not part of
    the sources: the code is embedded for any such function. *)
Class StringPrototype := { toLowerCase : string → string }.

(** What [toLowerCase] does to a string of ASCII characters: the letters A
    to Z are lowered and nothing else changes. *)
Definition lower_ascii (c : ascii) : ascii :=
  let n := N_of_ascii c in
  if ((65 <=? n) && (n <=? 90))%N then ascii_of_N (n + 32) else c.

Definition upper_ascii (c : ascii) : ascii :=
  let n := N_of_ascii c in
  if ((97 <=? n) && (n <=? 122))%N then ascii_of_N (n - 32) else c.

Fixpoint ascii_toLowerCase (s : string) : string :=
  match s with
  | EmptyString => EmptyString
  | String c rest => String (lower_ascii c) (ascii_toLowerCase rest)
  end.

(** A runtime to run things on: it lowers the ASCII letters. *)
Definition ascii_strings : StringPrototype :=
  {| toLowerCase := ascii_toLowerCase |}.

(** ** The view model, [KernelStatus.Model] *)

Module Model.

(** The private fields of the model. *)
Record t := mk {
  _kernelName : string;
  _kernelStatus : string;
  _session : option sid
}.

(** The model together with the host state its methods reach. *)
Record State := mkState {
  this : t;
  sessions : sid → IClientSession.t;
  trace : list Effect
}.

(** State passing, with the notation of the source's statement sequence. *)
Definition M (A : Type) : Type := State → A * State.

Definition ret {A} (a : A) : M A := fun σ => (a, σ).

Definition bind {A B} (m : M A) (k : A → M B) : M B :=
  fun σ => let (a, σ') := m σ in k a σ'.

#[global] Instance M_ret : MRet M := @ret.
#[global] Instance M_bind : MBind M := fun A B k m => bind m k.

Definition exec {A} (m : M A) (σ : State) : State := snd (m σ).

(** Field reads and writes. *)
Definition get_session : M (option sid) := fun σ => (_session (this σ), σ).

Definition put_session (v : option sid) : M unit := fun σ =>
  (tt, mkState (mk (_kernelName (this σ)) (_kernelStatus (this σ)) v)
               (sessions σ) (trace σ)).

Definition put_kernelStatus (v : string) : M unit := fun σ =>
  (tt, mkState (mk (_kernelName (this σ)) v (_session (this σ)))
               (sessions σ) (trace σ)).

Definition put_kernelName (v : string) : M unit := fun σ =>
  (tt, mkState (mk v (_kernelStatus (this σ)) (_session (this σ)))
               (sessions σ) (trace σ)).

(** Reads of a session object. *)
Definition session_status (s : sid) : M string :=
  fun σ => (IClientSession.status (sessions σ s), σ).

Definition session_kernelDisplayName (s : sid) : M string :=
  fun σ => (IClientSession.kernelDisplayName (sessions σ s), σ).

Definition receivers (sig : SignalName) (o : IClientSession.t) : gset Slot :=
  match sig with
  | StatusChanged => IClientSession.statusChanged o
  | KernelChanged => IClientSession.kernelChanged o
  end.

Definition with_receivers (sig : SignalName) (f : gset Slot → gset Slot)
    (o : IClientSession.t) : IClientSession.t :=
  match sig with
  | StatusChanged =>
      IClientSession.mk (IClientSession.status o)
        (IClientSession.kernelDisplayName o) (IClientSession.type o)
        (f (IClientSession.statusChanged o)) (IClientSession.kernelChanged o)
  | KernelChanged =>
      IClientSession.mk (IClientSession.status o)
        (IClientSession.kernelDisplayName o) (IClientSession.type o)
        (IClientSession.statusChanged o) (f (IClientSession.kernelChanged o))
  end.

Definition log (e : Effect) : M unit := fun σ =>
  (tt, mkState (this σ) (sessions σ) (trace σ ++ [e])).

(** [s.<sig>.disconnect(slot)] *)
Definition disconnect (s : sid) (sig : SignalName) (slot : Slot) : M unit :=
  fun σ =>
    (tt, mkState (this σ)
           (<[ s := with_receivers sig (Signal.disconnect slot) (sessions σ s) ]>
              (sessions σ))
           (trace σ ++ [Disconnect s sig slot])).

(** [s.<sig>.connect(slot)] *)
Definition connect (s : sid) (sig : SignalName) (slot : Slot) : M unit :=
  fun σ =>
    (tt, mkState (this σ)
           (<[ s := with_receivers sig (Signal.connect slot) (sessions σ s) ]>
              (sessions σ))
           (trace σ ++ [Connect s sig slot])).

(** [this.stateChanged.emit(void 0)] *)
Definition stateChanged_emit : M unit := log StateChangedEmit.

(** The getters. *)
Definition name (σ : State) : string := _kernelName (this σ).

Definition status (σ : State) : string := _kernelStatus (this σ).

Definition type (σ : State) : option string :=
  match _session (this σ) with
  | None => None
  | Some s => Some (IClientSession.type (sessions σ s))
  end.

Definition session (σ : State) : option sid := _session (this σ).

Section Runtime.

Context {JS : StringPrototype}.

(** The setter of [session]. *)
Definition set_session (session : option sid) : M unit :=
  oldSession ← get_session;
  match oldSession with
  | Some old =>
      disconnect old StatusChanged OnKernelStatusChanged ;;
      disconnect old KernelChanged OnKernelChanged
  | None => mret tt
  end ;;
  put_session session ;;
  cur ← get_session;
  match cur with
  | None =>
      put_kernelStatus "unknown" ;;
      put_kernelName "unknown"
  | Some s =>
      st ← session_status s;
      put_kernelStatus st ;;
      dn ← session_kernelDisplayName s;
      put_kernelName (toLowerCase dn) ;;
      connect s StatusChanged OnKernelStatusChanged ;;
      connect s KernelChanged OnKernelChanged
  end ;;
  stateChanged_emit.

(** [_onKernelStatusChanged] *)
Definition _onKernelStatusChanged (_session : sid) (status : string) : M unit :=
  put_kernelStatus status ;;
  stateChanged_emit.

(** [_onKernelChanged]; [newValue] is the field of the change argument. *)
Definition _onKernelChanged (_session : sid)
    (newValue : option Kernel.IKernelConnection) : M unit :=
  match newValue with
  | Some k =>
      put_kernelStatus (Kernel.status k) ;;
      put_kernelName (toLowerCase (Kernel.name (Kernel.model k)))
  | None =>
      put_kernelStatus "unknown" ;;
      put_kernelName "unknown"
  end ;;
  stateChanged_emit.

(** The host's side of a session signal.  The session [s] takes its new
    status and [s.statusChanged] fires; the slots of other components do
    not touch this state. *)
Definition with_status (v : string) (o : IClientSession.t) : IClientSession.t :=
  IClientSession.mk v (IClientSession.kernelDisplayName o)
    (IClientSession.type o) (IClientSession.statusChanged o)
    (IClientSession.kernelChanged o).

Definition with_kernelDisplayName (v : string) (o : IClientSession.t)
    : IClientSession.t :=
  IClientSession.mk (IClientSession.status o) v
    (IClientSession.type o) (IClientSession.statusChanged o)
    (IClientSession.kernelChanged o).

Definition host_update (s : sid) (f : IClientSession.t → IClientSession.t)
    : M unit :=
  fun σ => (tt, mkState (this σ) (<[ s := f (sessions σ s) ]> (sessions σ))
                  (trace σ)).

Definition connected (s : sid) (sig : SignalName) (slot : Slot) : M bool :=
  fun σ => (bool_decide (slot ∈ receivers sig (sessions σ s)), σ).

(** A signal of [s] fires: the model's slot runs when it is connected. *)
Definition dispatch (s : sid) (sig : SignalName) (slot : Slot)
    (handler : M unit) : M unit :=
  c ← connected s sig slot;
  if (c : bool) then log (Invoke s slot) ;; handler else mret tt.

Definition emit_statusChanged (s : sid) (status : string) : M unit :=
  host_update s (with_status status) ;;
  dispatch s StatusChanged OnKernelStatusChanged
    (_onKernelStatusChanged s status).

(** [s.kernelChanged] fires with the new kernel, or with none; the session
    shows the kernel's status and the display name the host found for it. *)
Definition emit_kernelChanged (s : sid)
    (newValue : option Kernel.IKernelConnection) (displayName : string)
    : M unit :=
  host_update s (with_status
    match newValue with Some k => Kernel.status k | None => "unknown" end) ;;
  host_update s (with_kernelDisplayName displayName) ;;
  dispatch s KernelChanged OnKernelChanged (_onKernelChanged s newValue).

(** The field initialisers, then the constructor body: the fields hold
    their defaults when the setter runs for the first time. *)
Definition initial : t := mk "unknown" "unknown" None.

Definition new (session : option sid) (sessions : sid → IClientSession.t)
    (trace : list Effect) : State :=
  exec (set_session session) (mkState initial sessions trace).

End Runtime.

End Model.

(** ** The widgets of the main area *)

Module NotebookPanel.
Record t := { session : sid }.
End NotebookPanel.

Module ConsolePanel.
Record t := { session : sid }.
End ConsolePanel.

(** A [Widget], by the class tests the code makes on it. *)
Inductive Widget :=
| IsNotebookPanel (p : NotebookPanel.t)
| IsConsolePanel (p : ConsolePanel.t)
| OtherWidget (id : nat).

(** What [render] returns: the [TextItem] element and its props. *)
Inductive Handler := HandleClick.

Record TextItem := {
  onClick : Handler;
  title : string;
  source : string
}.

Module KernelStatusComponent.
Record IProps := {
  handleClick : Handler;
  name : string;
  status : string
}.
End KernelStatusComponent.

(** Failure of a method: the exception a property access on [null] raises. *)
Inductive Result (A : Type) :=
| Ok (a : A)
| TypeError.
Arguments Ok {A} a.
Arguments TypeError {A}.

(** ** The widget, [KernelStatus] *)

Module KernelStatus.

Record t := mk {
  model : option Model.t;
  classes : gset string;
  currentWidget : option Widget;
  executed : list string;
  sessions : sid → IClientSession.t;
  trace : list Effect
}.

(** State passing with failure. *)
Definition W (A : Type) : Type := t → Result (A * t).

Definition ret {A} (a : A) : W A := fun w => Ok (a, w).

Definition bind {A B} (m : W A) (k : A → W B) : W B :=
  fun w => match m w with
           | Ok (a, w') => k a w'
           | TypeError => TypeError
           end.

#[global] Instance W_ret : MRet W := @ret.
#[global] Instance W_bind : MBind W := fun A B k m => bind m k.

(** The model of the widget, with the host state its methods reach. *)
Definition view (mo : Model.t) (w : t) : Model.State :=
  Model.mkState mo (sessions w) (trace w).

(** A method of [this.model!]: it fails when the model is [null]. *)
Definition on_model {A} (m : Model.M A) : W A := fun w =>
  match model w with
  | None => TypeError
  | Some mo =>
      let (a, σ) := m (view mo w) in
      Ok (a, mk (Some (Model.this σ)) (classes w) (currentWidget w)
                (executed w) (Model.sessions σ) (Model.trace σ))
  end.

Definition set_model_session {JS : StringPrototype} (session : option sid)
    : W unit :=
  on_model (Model.set_session session).

Definition model_type : W (option string) :=
  on_model (fun σ => (Model.type σ, σ)).

Definition shell_currentWidget : W (option Widget) :=
  fun w => Ok (currentWidget w, w).

Definition commands_execute (id : string) : W unit := fun w =>
  Ok (tt, mk (model w) (classes w) (currentWidget w) (executed w ++ [id])
             (sessions w) (trace w)).

Section Style.

(** The class name [interactiveItem] of ../style/statusBar and the
    function [TextExt.titleCase] of ../util/text are not part of the
    sources: the widget is embedded for any value of them. *)
Variable interactiveItem : string.
Variable titleCase : string → string.
Context {JS : StringPrototype}.

Definition addClass (c : string) : W unit := fun w =>
  Ok (tt, mk (model w) (classes w ∪ {[ c ]}) (currentWidget w) (executed w)
             (sessions w) (trace w)).

Definition removeClass (c : string) : W unit := fun w =>
  Ok (tt, mk (model w) (classes w ∖ {[ c ]}) (currentWidget w) (executed w)
             (sessions w) (trace w)).

Definition _getFocusedSession (val : option Widget) : option sid :=
  match val with
  | None => None
  | Some (IsNotebookPanel p) => Some (NotebookPanel.session p)
  | Some (IsConsolePanel p) => Some (ConsolePanel.session p)
  | Some (OtherWidget _) => None
  end.

Definition KernelStatusComponent (props : KernelStatusComponent.IProps)
    : TextItem :=
  {| onClick := KernelStatusComponent.handleClick props;
     title := "Current active kernel";
     source := titleCase (KernelStatusComponent.name props) +:+ " | " +:+
               titleCase (KernelStatusComponent.status props) |}.

Definition render (w : t) : option TextItem :=
  match model w with
  | None => None
  | Some m =>
      Some (KernelStatusComponent
              {| KernelStatusComponent.status := Model._kernelStatus m;
                 KernelStatusComponent.name := Model._kernelName m;
                 KernelStatusComponent.handleClick := HandleClick |})
  end.

(** [super.onUpdateRequest] is the renderer of the host, which calls
    [render]; it does not change this state. *)
Definition onUpdateRequest : W unit :=
  cw ← shell_currentWidget;
  set_model_session (_getFocusedSession cw) ;;
  ty ← model_type;
  if decide (ty = Some "notebook") then addClass interactiveItem
  else removeClass interactiveItem.

Definition _handleClick : W unit :=
  ty ← model_type;
  if decide (ty = Some "notebook")
  then commands_execute "notebook:change-kernel"
  else mret tt.

Definition _onNotebookChange (panel : option NotebookPanel.t) : W unit :=
  set_model_session (NotebookPanel.session <$> panel) ;;
  addClass interactiveItem.

Definition _onConsoleChange (panel : option ConsolePanel.t) : W unit :=
  set_model_session (ConsolePanel.session <$> panel) ;;
  removeClass interactiveItem.

Definition _onMainAreaCurrentChange (newValue : option Widget) : W unit :=
  let editor := _getFocusedSession newValue in
  set_model_session editor.

(** The constructor.  The base class leaves the model [null]; the three
    connections to the trackers and the shell are the host's, and the
    host delivers their signals as the events below. *)
Definition new (shell_current : option Widget)
    (sessions : sid → IClientSession.t) (trace : list Effect) : Result t :=
  let σ := Model.new (_getFocusedSession shell_current) sessions trace in
  let w := mk (Some (Model.this σ)) ∅ shell_current []
              (Model.sessions σ) (Model.trace σ) in
  match
    (ty ← model_type;
     if decide (ty = Some "notebook") then addClass interactiveItem
     else mret tt) w
  with
  | Ok (_, w') => Ok w'
  | TypeError => TypeError
  end.

(** What the host may deliver to the widget.  The renderer answers a
    "state changed" of its model with an update request posted to the
    message loop; it arrives later, as an event of its own. *)
Inductive Event :=
| NotebookChanged (panel : option NotebookPanel.t)
| ConsoleChanged (panel : option ConsolePanel.t)
| MainAreaCurrentChanged (newValue : option Widget)
| UpdateRequest
| Click
| SessionStatusChanged (s : sid) (status : string)
| SessionKernelChanged (s : sid)
    (newValue : option Kernel.IKernelConnection) (displayName : string).

(** A session signal reaches the model, when there is one; without a
    model none of its slots runs and only the session changes. *)
Definition on_session_signal (m : Model.M unit) : W unit := fun w =>
  match model w with
  | Some _ => on_model m w
  | None =>
      let σ := Model.exec m (Model.mkState Model.initial (sessions w) []) in
      Ok (tt, mk None (classes w) (currentWidget w) (executed w)
                 (Model.sessions σ) (trace w))
  end.

(** The shell has made [newValue] its current widget when its signal
    fires. *)
Definition shell_focus (newValue : option Widget) : W unit := fun w =>
  Ok (tt, mk (model w) (classes w) newValue (executed w)
             (sessions w) (trace w)).

Definition deliver (e : Event) : W unit :=
  match e with
  | NotebookChanged panel => _onNotebookChange panel
  | ConsoleChanged panel => _onConsoleChange panel
  | MainAreaCurrentChanged newValue =>
      shell_focus newValue ;; _onMainAreaCurrentChange newValue
  | UpdateRequest => onUpdateRequest
  | Click => _handleClick
  | SessionStatusChanged s status =>
      on_session_signal (Model.emit_statusChanged s status)
  | SessionKernelChanged s newValue displayName =>
      on_session_signal (Model.emit_kernelChanged s newValue displayName)
  end.

Fixpoint run (events : list Event) (w : t) : Result t :=
  match events with
  | [] => Ok w
  | e :: rest =>
      match deliver e w with
      | Ok (_, w') => run rest w'
      | TypeError => TypeError
      end
  end.

End Style.

End KernelStatus.

(** Modelled from the spec: [TextExt.titleCase] of ../util/text, which is not
    part of the sources.  The spec's label is the title-cased name and status
    ("python3" gives "Python3", "idle" gives "Idle"): the first letter of
    every word is put in upper case. *)
Module TextExt.
Fixpoint titleCase_from (start : bool) (s : string) : string :=
  match s with
  | EmptyString => EmptyString
  | String c rest =>
      String (if start then upper_ascii c else c)
             (titleCase_from (Ascii.eqb c " ") rest)
  end.

Definition titleCase (s : string) : string := titleCase_from true s.
End TextExt.

(** ** Notions the properties are stated with *)

(** The number of "state changed" notifications in a trace. *)
Definition emits (tr : list Effect) : nat :=
  count_occ Effect_eq_dec tr StateChangedEmit.

(** No slot of the model is connected anywhere: the store as a model finds
    it when it is created, its two arrow functions being new objects. *)
Definition fresh (h : sid → IClientSession.t) : Prop :=
  ∀ i, (OnKernelStatusChanged ∉ IClientSession.statusChanged (h i)) ∧
       (OnKernelChanged ∉ IClientSession.kernelChanged (h i)).

(** The model listens to session [i]. *)
Definition observes (σ : Model.State) (i : sid) : Prop :=
  OnKernelStatusChanged ∈ IClientSession.statusChanged (Model.sessions σ i) ∨
  OnKernelChanged ∈ IClientSession.kernelChanged (Model.sessions σ i).

#[global] Instance SignalName_countable : Countable SignalName.
Proof.
  refine (inj_countable'
    (fun s => match s with StatusChanged => false | KernelChanged => true end)
    (fun b => if b then KernelChanged else StatusChanged) _).
  intros []; reflexivity.
Defined.

(** The connections a trace has made and not yet undone, replayed from its
    start. *)
Definition replay (a : gset (sid * SignalName * Slot)) (e : Effect)
    : gset (sid * SignalName * Slot) :=
  match e with
  | Connect s sig slot => a ∪ {[ (s, sig, slot) ]}
  | Disconnect s sig slot => a ∖ {[ (s, sig, slot) ]}
  | Invoke _ _ => a
  | StateChangedEmit => a
  end.

Definition active (tr : list Effect) : gset (sid * SignalName * Slot) :=
  foldl replay ∅ tr.

(** All live connections are on one session. *)
Definition single_session (a : gset (sid * SignalName * Slot)) : Prop :=
  ∀ x y, x ∈ a → y ∈ a → x.1.1 = y.1.1.

(** A step of the trace is in order when at most one session is connected
    before and after it, and when a slot it runs is connected, at that
    point, to the session whose signal fired. *)
Definition step_ok (a : gset (sid * SignalName * Slot)) (e : Effect) : Prop :=
  single_session a ∧ single_session (replay a e) ∧
  match e with
  | Invoke s slot => ∃ sig, (s, sig, slot) ∈ a
  | _ => True
  end.

Fixpoint ok_from (a : gset (sid * SignalName * Slot)) (tr : list Effect)
    : Prop :=
  match tr with
  | [] => True
  | e :: rest => step_ok a e ∧ ok_from (replay a e) rest
  end.

Definition one_session_at_a_time (tr : list Effect) : Prop := ok_from ∅ tr.

(** The connections of a model that is attached to [o]. *)
Definition live (o : option sid) : gset (sid * SignalName * Slot) :=
  match o with
  | None => ∅
  | Some s => {[ (s, StatusChanged, OnKernelStatusChanged);
                 (s, KernelChanged, OnKernelChanged) ]}
  end.

(** The model's slots sit on the attached session and nowhere else, which
    is also what the trace says, and the trace was in order throughout. *)
Definition attached_only (σ : Model.State) : Prop :=
  (∀ i, OnKernelStatusChanged ∈ IClientSession.statusChanged (Model.sessions σ i)
        ↔ Model.session σ = Some i) ∧
  (∀ i, OnKernelChanged ∈ IClientSession.kernelChanged (Model.sessions σ i)
        ↔ Model.session σ = Some i) ∧
  active (Model.trace σ) = live (Model.session σ) ∧
  one_session_at_a_time (Model.trace σ).

(** What happens to a model over its life: its session is set, and the
    sessions of the host fire their signals. *)
Inductive Op :=
| Attach (session : option sid)
| StatusSignal (s : sid) (status : string)
| KernelSignal (s : sid) (newValue : option Kernel.IKernelConnection)
    (displayName : string).

Definition perform {JS : StringPrototype} (op : Op) : Model.M unit :=
  match op with
  | Attach session => Model.set_session session
  | StatusSignal s status => Model.emit_statusChanged s status
  | KernelSignal s newValue displayName =>
      Model.emit_kernelChanged s newValue displayName
  end.

Definition perform_all {JS : StringPrototype} (ops : list Op)
    (σ : Model.State) : Model.State :=
  foldl (fun σ op => Model.exec (perform op) σ) σ ops.

(** What a kernel change brings: the values [_onKernelChanged] stores, and
    the session as the host leaves it. *)
Definition kernel_status (newValue : option Kernel.IKernelConnection) : string :=
  match newValue with Some k => Kernel.status k | None => "unknown" end.

Definition kernel_name {JS : StringPrototype}
    (newValue : option Kernel.IKernelConnection) : string :=
  match newValue with
  | Some k => toLowerCase (Kernel.name (Kernel.model k))
  | None => "unknown"
  end.

Definition after_kernel_change (s : sid)
    (newValue : option Kernel.IKernelConnection) (displayName : string)
    (h : sid → IClientSession.t) : sid → IClientSession.t :=
  <[ s := Model.with_kernelDisplayName displayName
            (Model.with_status (kernel_status newValue) (h s)) ]> h.

(** A store to try things on: every session idle, on a "Python 3" kernel, of
    type "notebook", with one listener of another component. *)
Definition quiet_sessions : sid → IClientSession.t := fun _ =>
  IClientSession.mk "idle" "Python 3" "notebook" {[ Foreign 0 ]} ∅.

(** A model made on session 1 in that store, and what happens to it. *)
Definition quiet_ops : list Op :=
  [StatusSignal 1 "busy"; Attach None; StatusSignal 1 "idle"; Attach (Some 2)].

Definition quiet_life : Model.State :=
  perform_all (JS := ascii_strings) quiet_ops
    (Model.new (JS := ascii_strings) (Some 1) quiet_sessions []).

(** A store and a widget for the scenarios: session 1 is the session of a
    notebook, idle on a kernel displayed as "python3"; the other sessions are
    busy consoles. *)
Definition demo_sessions : sid → IClientSession.t := fun i =>
  if decide (i = 1)
  then IClientSession.mk "idle" "python3" "notebook" ∅ ∅
  else IClientSession.mk "busy" "Julia 1.0" "console" {[ Foreign 7 ]} ∅.

Definition notebookA : Widget :=
  IsNotebookPanel {| NotebookPanel.session := 1 |}.

Definition consoleB : Widget :=
  IsConsolePanel {| ConsolePanel.session := 2 |}.

Definition scenario (focus : option Widget) (events : list KernelStatus.Event)
    : Result KernelStatus.t :=
  match KernelStatus.new (JS := ascii_strings) "interactive" focus
          demo_sessions [] with
  | Ok w0 => KernelStatus.run (JS := ascii_strings) "interactive" events w0
  | TypeError => TypeError
  end.

(** What a scenario shows: the label, whether the widget has the interactive
    class, and the commands run. *)
Definition shown (r : Result KernelStatus.t)
    : option (option string * bool * list string) :=
  match r with
  | Ok w =>
      Some (source <$> KernelStatus.render TextExt.titleCase w,
            bool_decide ("interactive" ∈ KernelStatus.classes w),
            KernelStatus.executed w)
  | TypeError => None
  end.

(** ** The widget's events, seen from its model *)

(** What an event does to the model: the focus handlers and the update
    request set the session, a session signal is a session signal, a click
    leaves the model alone.  [cw] is the shell's current widget when the
    event arrives. *)
Definition event_ops (cw : option Widget) (e : KernelStatus.Event) : list Op :=
  match e with
  | KernelStatus.NotebookChanged panel =>
      [Attach (NotebookPanel.session <$> panel)]
  | KernelStatus.ConsoleChanged panel =>
      [Attach (ConsolePanel.session <$> panel)]
  | KernelStatus.MainAreaCurrentChanged newValue =>
      [Attach (KernelStatus._getFocusedSession newValue)]
  | KernelStatus.UpdateRequest => [Attach (KernelStatus._getFocusedSession cw)]
  | KernelStatus.Click => []
  | KernelStatus.SessionStatusChanged s status => [StatusSignal s status]
  | KernelStatus.SessionKernelChanged s newValue displayName =>
      [KernelSignal s newValue displayName]
  end.

(** The shell's current widget after an event. *)
Definition shell_step (cw : option Widget) (e : KernelStatus.Event)
    : option Widget :=
  match e with
  | KernelStatus.MainAreaCurrentChanged newValue => newValue
  | _ => cw
  end.

Fixpoint run_ops (cw : option Widget) (events : list KernelStatus.Event)
    : list Op :=
  match events with
  | [] => []
  | e :: rest => event_ops cw e ++ run_ops (shell_step cw e) rest
  end.

(** The number of clicks among the events. *)
Fixpoint clicks (events : list KernelStatus.Event) : nat :=
  match events with
  | [] => 0
  | KernelStatus.Click :: rest => S (clicks rest)
  | _ :: rest => clicks rest
  end.

(** The stored name has no letter from A to Z: lowering them changes
    nothing. *)
Definition lower_name (σ : Model.State) : Prop :=
  ascii_toLowerCase (Model.name σ) = Model.name σ.

(** Without a session the model holds the "unknown" defaults. *)
Definition defaults_without_session (σ : Model.State) : Prop :=
  Model.session σ = None →
  Model.name σ = "unknown" ∧ Model.status σ = "unknown".

(** ** The widget among the focus signals of the host *)

(** The slots connected to the [currentChanged] signals of the two trackers
    and of the shell: the three arrow functions of the widget, and the
    listeners of other components. *)
Inductive FocusSlot :=
| OnNotebookChange
| OnConsoleChange
| OnMainAreaCurrentChange
| OtherListener (n : nat).

#[global] Instance FocusSlot_eq_dec : EqDecision FocusSlot.
Proof. solve_decision. Defined.

#[global] Instance FocusSlot_countable : Countable FocusSlot.
Proof.
  refine (inj_countable'
    (fun s => match s with
              | OnNotebookChange => inl 0
              | OnConsoleChange => inl 1
              | OnMainAreaCurrentChange => inl 2
              | OtherListener n => inr n
              end)
    (fun c => match c with
              | inl 0 => OnNotebookChange
              | inl 1 => OnConsoleChange
              | inl _ => OnMainAreaCurrentChange
              | inr n => OtherListener n
              end) _).
  intros []; reflexivity.
Defined.

(** The options of the constructor, as far as their signals go. *)
Record FocusSignals := {
  notebookTracker_currentChanged : gset FocusSlot;
  consoleTracker_currentChanged : gset FocusSlot;
  shell_currentChanged : gset FocusSlot
}.

Module Wired.

(** The widget with the signals it was built on. *)
Record t := mk {
  widget : KernelStatus.t;
  signals : FocusSignals
}.

Section Base.

Variable interactiveItem : string.
Context {JS : StringPrototype}.

(** [super.dispose] is the base class's; it is not part of the sources and
    acts on the widget's own state. *)
Variable super_dispose : KernelStatus.t → KernelStatus.t.

(** The three [connect] calls of the constructor, then the rest of it. *)
Definition new (opts : FocusSignals) (shell_current : option Widget)
    (sessions : sid → IClientSession.t) (trace : list Effect) : Result t :=
  let connected :=
    {| notebookTracker_currentChanged :=
         notebookTracker_currentChanged opts ∪ {[ OnNotebookChange ]};
       consoleTracker_currentChanged :=
         consoleTracker_currentChanged opts ∪ {[ OnConsoleChange ]};
       shell_currentChanged :=
         shell_currentChanged opts ∪ {[ OnMainAreaCurrentChange ]} |} in
  match KernelStatus.new interactiveItem shell_current sessions trace with
  | Ok w => Ok (mk w connected)
  | TypeError => TypeError
  end.

(** [dispose] *)
Definition dispose (this : t) : t :=
  mk (super_dispose (widget this))
     {| notebookTracker_currentChanged :=
          notebookTracker_currentChanged (signals this) ∖ {[ OnNotebookChange ]};
        consoleTracker_currentChanged :=
          consoleTracker_currentChanged (signals this) ∖ {[ OnConsoleChange ]};
        shell_currentChanged :=
          shell_currentChanged (signals this) ∖ {[ OnMainAreaCurrentChange ]} |}.

(** Whether the host's signal for a focus event has the widget's slot. *)
Definition reaches (e : KernelStatus.Event) (s : FocusSignals) : bool :=
  match e with
  | KernelStatus.NotebookChanged _ =>
      bool_decide (OnNotebookChange ∈ notebookTracker_currentChanged s)
  | KernelStatus.ConsoleChanged _ =>
      bool_decide (OnConsoleChange ∈ consoleTracker_currentChanged s)
  | KernelStatus.MainAreaCurrentChanged _ =>
      bool_decide (OnMainAreaCurrentChange ∈ shell_currentChanged s)
  | _ => true
  end.

(** A signal of the host fires.  The widget's handler runs when its slot is
    connected; the shell has changed its current widget either way.  The
    other events do not come through these signals. *)
Definition fire (e : KernelStatus.Event) (this : t) : Result t :=
  if reaches e (signals this) then
    match KernelStatus.deliver interactiveItem e (widget this) with
    | Ok (_, w') => Ok (mk w' (signals this))
    | TypeError => TypeError
    end
  else
    match KernelStatus.shell_focus (shell_step
            (KernelStatus.currentWidget (widget this)) e) (widget this) with
    | Ok (_, w') => Ok (mk w' (signals this))
    | TypeError => TypeError
    end.

End Base.

End Wired.

(** None of the widget's three slots is connected: the signals as a widget
    finds them when it is built, its arrow functions being new objects. *)
Definition unwired (s : FocusSignals) : Prop :=
  (OnNotebookChange ∉ notebookTracker_currentChanged s) ∧
  (OnConsoleChange ∉ consoleTracker_currentChanged s) ∧
  (OnMainAreaCurrentChange ∉ shell_currentChanged s).

(** Signals to try things on: another component listens to the shell. *)
Definition quiet_signals : FocusSignals :=
  {| notebookTracker_currentChanged := ∅;
     consoleTracker_currentChanged := ∅;
     shell_currentChanged := {[ OtherListener 0 ]} |}.

(** * Properties *)

Import Model.

Set Warnings "-clear-no-such-hyp".

Ltac model_run :=
  cbv [exec set_session _onKernelStatusChanged _onKernelChanged
       emit_statusChanged emit_kernelChanged dispatch host_update connected
       mbind mret M_bind M_ret bind ret get_session put_session
       put_kernelStatus put_kernelName session_status
       session_kernelDisplayName disconnect connect stateChanged_emit log
       name status type session this sessions trace _session _kernelName
       _kernelStatus fst snd perform].

Ltac fn_cases :=
  unfold insert, fn_insert in *;
  repeat (case_decide; simplify_eq; simpl in * ).

(** The properties hold whatever the runtime's [toLowerCase] is. *)
Section Properties.

Context {JS : StringPrototype}.

(** ** The session setter, in closed form *)

Lemma set_session_this (new : option sid) (σ : State) :
  this (exec (set_session new) σ) =
  match new with
  | None => Model.mk "unknown" "unknown" None
  | Some s =>
      Model.mk (toLowerCase (IClientSession.kernelDisplayName (sessions σ s)))
               (IClientSession.status (sessions σ s)) (Some s)
  end.
Proof.
  destruct σ as [[n st [o|]] h tr], new as [s|]; model_run; try reflexivity;
    fn_cases; reflexivity.
Qed.

Lemma set_session_trace (new : option sid) (σ : State) :
  trace (exec (set_session new) σ) =
  trace σ ++
  match session σ with
  | Some old => [Disconnect old StatusChanged OnKernelStatusChanged;
                 Disconnect old KernelChanged OnKernelChanged]
  | None => []
  end ++
  match new with
  | Some s => [Connect s StatusChanged OnKernelStatusChanged;
               Connect s KernelChanged OnKernelChanged]
  | None => []
  end ++ [StateChangedEmit].
Proof.
  destruct σ as [[n st [o|]] h tr], new as [s|]; model_run;
    rewrite <- ?app_assoc; reflexivity.
Qed.

(** The attributes of every session are left alone. *)
Lemma set_session_attributes (new : option sid) (σ : State) (i : sid) :
  let o := sessions σ i in
  let o' := sessions (exec (set_session new) σ) i in
  IClientSession.status o' = IClientSession.status o ∧
  IClientSession.kernelDisplayName o' = IClientSession.kernelDisplayName o ∧
  IClientSession.type o' = IClientSession.type o.
Proof.
  destruct σ as [[n st [o|]] h tr], new as [s|]; model_run;
    fn_cases; auto.
Qed.

Lemma set_session_statusChanged (new : option sid) (σ : State) (i : sid) :
  IClientSession.statusChanged (sessions (exec (set_session new) σ) i) =
  (let r := IClientSession.statusChanged (sessions σ i) in
   let r := if decide (session σ = Some i)
            then r ∖ {[ OnKernelStatusChanged ]} else r in
   if decide (new = Some i) then r ∪ {[ OnKernelStatusChanged ]} else r).
Proof.
  destruct σ as [[n st [o|]] h tr], new as [s|]; model_run;
    fn_cases; try reflexivity; try congruence.
Qed.

Lemma set_session_kernelChanged (new : option sid) (σ : State) (i : sid) :
  IClientSession.kernelChanged (sessions (exec (set_session new) σ) i) =
  (let r := IClientSession.kernelChanged (sessions σ i) in
   let r := if decide (session σ = Some i)
            then r ∖ {[ OnKernelChanged ]} else r in
   if decide (new = Some i) then r ∪ {[ OnKernelChanged ]} else r).
Proof.
  destruct σ as [[n st [o|]] h tr], new as [s|]; model_run;
    fn_cases; try reflexivity; try congruence.
Qed.

Lemma emits_app (t1 t2 : list Effect) : emits (t1 ++ t2) = emits t1 + emits t2.
Proof. unfold emits. apply count_occ_app. Qed.

Lemma set_session_emits (new : option sid) (σ : State) :
  emits (trace (exec (set_session new) σ)) = S (emits (trace σ)).
Proof.
  rewrite set_session_trace, emits_app.
  destruct (session σ), new; cbn; lia.
Qed.

(** ** The session setter *)

(** C2.  After the setter runs with no session, the name and the status are
    "unknown" and the type is none; after it runs with a session [s], the
    status is the status of [s], the name is the kernel display name of [s]
    in lower case, the session and its type are those of [s], and both slots
    of the model are connected to the signals of [s]. *)
Theorem set_session_result (σ : State) :
  (let σ' := exec (set_session None) σ in
   name σ' = "unknown" ∧ status σ' = "unknown" ∧ type σ' = None ∧
   session σ' = None) ∧
  (∀ s : sid,
     let σ' := exec (set_session (Some s)) σ in
     status σ' = IClientSession.status (sessions σ s) ∧
     status σ' = IClientSession.status (sessions σ' s) ∧
     name σ' = toLowerCase (IClientSession.kernelDisplayName (sessions σ s)) ∧
     session σ' = Some s ∧
     type σ' = Some (IClientSession.type (sessions σ s)) ∧
     OnKernelStatusChanged ∈ IClientSession.statusChanged (sessions σ' s) ∧
     OnKernelChanged ∈ IClientSession.kernelChanged (sessions σ' s)).
Proof.
  split.
  - cbn zeta. unfold name, status, type, session.
    rewrite set_session_this. auto.
  - intros s. cbn zeta.
    pose proof (set_session_attributes (Some s) σ s) as (Hst & _ & Hty).
    cbn zeta in Hst, Hty.
    unfold name, status, type, session.
    rewrite set_session_this; cbn.
    rewrite Hst, Hty, set_session_statusChanged, set_session_kernelChanged.
    cbn zeta. rewrite !decide_True by reflexivity.
    repeat split; try reflexivity;
      repeat case_decide; try congruence;
      apply elem_of_union; right; apply elem_of_singleton; reflexivity.
Qed.

(** C3.  Every call of the setter, whatever its argument and the state it
    starts from, appends exactly one "state changed" notification to the
    trace, as its last effect; so does a call that finds the session it is
    given already attached and leaves the model as it was. *)
Theorem set_session_emits_once (σ : State) (new : option sid) :
  let σ' := exec (set_session new) σ in
  (∃ done, trace σ' = trace σ ++ done ++ [StateChangedEmit] ∧ emits done = 0) ∧
  emits (trace σ') = S (emits (trace σ)) ∧
  (let σ'' := exec (set_session new) σ' in
   this σ'' = this σ' ∧ type σ'' = type σ' ∧
   emits (trace σ'') = S (emits (trace σ'))).
Proof.
  cbn zeta. split; [| split; [apply set_session_emits |] ].
  - rewrite set_session_trace.
    eexists (_ ++ _). split; [rewrite <- app_assoc; reflexivity |].
    destruct (session σ), new; reflexivity.
  - split; [| split; [| apply set_session_emits ] ].
    + rewrite !set_session_this. destruct new as [s|]; [| reflexivity].
      pose proof (set_session_attributes (Some s) σ s) as (Hst & Hdn & _).
      cbn zeta in Hst, Hdn. rewrite Hst, Hdn. reflexivity.
    + unfold type. rewrite !set_session_this.
      destruct new as [s|]; [| reflexivity]. cbn.
      pose proof (set_session_attributes (Some s)
                    (exec (set_session (Some s)) σ) s) as (_ & _ & Hty).
      cbn zeta in Hty. rewrite Hty. reflexivity.
Qed.

Lemma session_object_eq (o1 o2 : IClientSession.t) :
  IClientSession.status o1 = IClientSession.status o2 →
  IClientSession.kernelDisplayName o1 = IClientSession.kernelDisplayName o2 →
  IClientSession.type o1 = IClientSession.type o2 →
  IClientSession.statusChanged o1 = IClientSession.statusChanged o2 →
  IClientSession.kernelChanged o1 = IClientSession.kernelChanged o2 →
  o1 = o2.
Proof. destruct o1, o2; simpl; congruence. Qed.

Lemma reconnect_same (x : Slot) (r : gset Slot) :
  ((r ∪ {[ x ]}) ∖ {[ x ]}) ∪ {[ x ]} = r ∪ {[ x ]}.
Proof.
  apply set_eq. intros y.
  rewrite !elem_of_union, elem_of_difference, elem_of_union, !elem_of_singleton.
  destruct (decide (y = x)); tauto.
Qed.

Lemma set_session_session (new : option sid) (σ : State) :
  session (exec (set_session new) σ) = new.
Proof. unfold session. rewrite set_session_this. destruct new; reflexivity. Qed.

(** C10.  Setting the session to the same value twice in a row leaves the
    name, the status, the type, the session and the slots connected to every
    session as the first assignment left them; each of the two assignments
    emits its own "state changed" notification. *)
Theorem set_session_twice (σ : State) (s : option sid) :
  let σ1 := exec (set_session s) σ in
  let σ2 := exec (set_session s) σ1 in
  name σ2 = name σ1 ∧ status σ2 = status σ1 ∧ type σ2 = type σ1 ∧
  session σ2 = session σ1 ∧
  (∀ i, IClientSession.statusChanged (sessions σ2 i) =
        IClientSession.statusChanged (sessions σ1 i) ∧
        IClientSession.kernelChanged (sessions σ2 i) =
        IClientSession.kernelChanged (sessions σ1 i)) ∧
  (∀ i, sessions σ2 i = sessions σ1 i) ∧
  emits (trace σ1) = S (emits (trace σ)) ∧
  emits (trace σ2) = S (emits (trace σ1)).
Proof.
  cbn zeta.
  assert (Hrecv : ∀ i,
    IClientSession.statusChanged
      (sessions (exec (set_session s) (exec (set_session s) σ)) i) =
    IClientSession.statusChanged (sessions (exec (set_session s) σ) i) ∧
    IClientSession.kernelChanged
      (sessions (exec (set_session s) (exec (set_session s) σ)) i) =
    IClientSession.kernelChanged (sessions (exec (set_session s) σ) i)).
  { intros i.
    rewrite (set_session_statusChanged s (exec _ σ)),
            (set_session_kernelChanged s (exec _ σ)).
    cbn zeta. rewrite set_session_session.
    rewrite set_session_statusChanged, set_session_kernelChanged. cbn zeta.
    destruct (decide (s = Some i)) as [->|Hne]; [| split; reflexivity].
    split; apply reconnect_same. }
  assert (Hthis : this (exec (set_session s) (exec (set_session s) σ)) =
                  this (exec (set_session s) σ)).
  { rewrite !set_session_this. destruct s as [s|]; [| reflexivity].
    pose proof (set_session_attributes (Some s) σ s) as (Hst & Hdn & _).
    cbn zeta in Hst, Hdn. rewrite Hst, Hdn. reflexivity. }
  assert (Hobj : ∀ i, sessions (exec (set_session s) (exec (set_session s) σ)) i =
                      sessions (exec (set_session s) σ) i).
  { intros i.
    pose proof (set_session_attributes s (exec (set_session s) σ) i)
      as (Hst & Hdn & Hty).
    destruct (Hrecv i). apply session_object_eq; assumption. }
  unfold name, status, type, session. rewrite Hthis.
  repeat split; try apply Hrecv; try apply Hobj; try apply set_session_emits.
  destruct (_session (this (exec (set_session s) σ))); [| reflexivity].
  rewrite Hobj. reflexivity.
Qed.

(** ** The two slots of the model *)

Lemma emit_statusChanged_connected (σ : State) (s : sid) (v : string) :
  OnKernelStatusChanged ∈ IClientSession.statusChanged (sessions σ s) →
  exec (emit_statusChanged s v) σ =
  mkState (Model.mk (name σ) v (session σ))
          (<[ s := with_status v (sessions σ s) ]> (sessions σ))
          (trace σ ++ [Invoke s OnKernelStatusChanged; StateChangedEmit]).
Proof.
  intros Hin. destruct σ as [[n st o] h tr]. model_run.
  rewrite fn_lookup_insert. simpl in *.
  rewrite bool_decide_eq_true_2 by assumption.
  rewrite <- app_assoc. reflexivity.
Qed.

Lemma emit_statusChanged_not_connected (σ : State) (s : sid) (v : string) :
  OnKernelStatusChanged ∉ IClientSession.statusChanged (sessions σ s) →
  exec (emit_statusChanged s v) σ =
  mkState (this σ) (<[ s := with_status v (sessions σ s) ]> (sessions σ))
          (trace σ).
Proof.
  intros Hin. destruct σ as [[n st o] h tr]. model_run.
  rewrite fn_lookup_insert. simpl in *.
  rewrite bool_decide_eq_false_2 by assumption. reflexivity.
Qed.

Lemma emit_kernelChanged_sessions (σ : State) (s : sid)
    (newValue : option Kernel.IKernelConnection) (displayName : string) (i : sid) :
  sessions (exec (emit_kernelChanged s newValue displayName) σ) i =
  after_kernel_change s newValue displayName (sessions σ) i.
Proof.
  destruct σ as [[n st o] h tr]. unfold after_kernel_change, kernel_status.
  model_run.
  destruct (bool_decide _); destruct newValue; simpl; fn_cases; reflexivity.
Qed.

Lemma emit_kernelChanged_connected (σ : State) (s : sid)
    (newValue : option Kernel.IKernelConnection) (displayName : string) :
  OnKernelChanged ∈ IClientSession.kernelChanged (sessions σ s) →
  this (exec (emit_kernelChanged s newValue displayName) σ) =
    Model.mk (kernel_name newValue) (kernel_status newValue) (session σ) ∧
  trace (exec (emit_kernelChanged s newValue displayName) σ) =
    trace σ ++ [Invoke s OnKernelChanged; StateChangedEmit].
Proof.
  intros Hin. destruct σ as [[n st o] h tr]. model_run.
  rewrite !fn_lookup_insert. simpl in *.
  rewrite bool_decide_eq_true_2 by assumption.
  destruct newValue; rewrite <- app_assoc; split; reflexivity.
Qed.

Lemma emit_kernelChanged_not_connected (σ : State) (s : sid)
    (newValue : option Kernel.IKernelConnection) (displayName : string) :
  OnKernelChanged ∉ IClientSession.kernelChanged (sessions σ s) →
  this (exec (emit_kernelChanged s newValue displayName) σ) = this σ ∧
  trace (exec (emit_kernelChanged s newValue displayName) σ) = trace σ.
Proof.
  intros Hin. destruct σ as [[n st o] h tr]. model_run.
  rewrite !fn_lookup_insert. simpl in *. rewrite bool_decide_eq_false_2 by assumption.
  split; reflexivity.
Qed.

Lemma attached_connected (σ : State) (s : sid) :
  let σa := exec (set_session (Some s)) σ in
  OnKernelStatusChanged ∈ IClientSession.statusChanged (sessions σa s) ∧
  OnKernelChanged ∈ IClientSession.kernelChanged (sessions σa s).
Proof.
  cbn zeta. rewrite set_session_statusChanged, set_session_kernelChanged.
  cbn zeta.
  split; repeat case_decide; try congruence;
    apply elem_of_union; right; apply elem_of_singleton; reflexivity.
Qed.

(** C6.  The status-changed slot stores the value it is given and emits one
    "state changed" notification; the name, the type, the session and the
    session objects stay as they were.  So it goes when the attached session
    fires its signal with a value: the slot runs once, the stored status is
    that value, and name, type and session are unchanged. *)
Theorem status_changed_slot (σ : State) (s : sid) (v : string) :
  (let σ' := exec (_onKernelStatusChanged s v) σ in
   status σ' = v ∧
   trace σ' = trace σ ++ [StateChangedEmit] ∧
   name σ' = name σ ∧ type σ' = type σ ∧ session σ' = session σ ∧
   sessions σ' = sessions σ) ∧
  (let σa := exec (set_session (Some s)) σ in
   let σ' := exec (emit_statusChanged s v) σa in
   status σ' = v ∧
   trace σ' = trace σa ++ [Invoke s OnKernelStatusChanged; StateChangedEmit] ∧
   name σ' = name σa ∧ type σ' = type σa ∧ session σ' = session σa).
Proof.
  split.
  - destruct σ as [[n st o] h tr]. model_run. repeat split; reflexivity.
  - cbn zeta.
    rewrite emit_statusChanged_connected by apply attached_connected.
    repeat split; try reflexivity.
    unfold type; simpl. fold (session (exec (set_session (Some s)) σ)).
    rewrite !set_session_session, fn_lookup_insert. reflexivity.
Qed.

(** C5.  The kernel-changed slot stores the status and the lower-cased name
    of the new kernel when the notification carries one, and "unknown" for
    both when it carries none; it emits "state changed" and leaves the
    session in place.  So it goes when the attached session fires its
    signal.  No failure comes of it: delivered to the widget, in any state
    of it, the notification is handled. *)
Theorem kernel_changed_slot (σ : State) (s : sid)
    (newValue : option Kernel.IKernelConnection) :
  (let σ' := exec (_onKernelChanged s newValue) σ in
   match newValue with
   | Some k => status σ' = Kernel.status k ∧
               name σ' = toLowerCase (Kernel.name (Kernel.model k))
   | None => status σ' = "unknown" ∧ name σ' = "unknown"
   end ∧
   trace σ' = trace σ ++ [StateChangedEmit] ∧
   session σ' = session σ ∧ sessions σ' = sessions σ) ∧
  (∀ displayName : string,
     let σa := exec (set_session (Some s)) σ in
     let σ' := exec (emit_kernelChanged s newValue displayName) σa in
     match newValue with
     | Some k => status σ' = Kernel.status k ∧
                 name σ' = toLowerCase (Kernel.name (Kernel.model k))
     | None => status σ' = "unknown" ∧ name σ' = "unknown"
     end ∧
     trace σ' = trace σa ++ [Invoke s OnKernelChanged; StateChangedEmit] ∧
     session σ' = Some s) ∧
  (∀ (interactiveItem displayName : string) (w : KernelStatus.t),
     ∃ w', KernelStatus.deliver interactiveItem
             (KernelStatus.SessionKernelChanged s newValue displayName) w =
           Ok (tt, w')).
Proof.
  split; [| split].
  - destruct σ as [[n st o] h tr], newValue; model_run;
      rewrite <- ?app_assoc; repeat split; reflexivity.
  - intros dn. cbn zeta.
    destruct (emit_kernelChanged_connected
                (exec (set_session (Some s)) σ) s newValue dn) as [Hthis Htr].
    { apply attached_connected. }
    unfold status, name, session. rewrite Hthis, Htr, set_session_session.
    destruct newValue; repeat split; reflexivity.
  - intros ii dn w. cbn [KernelStatus.deliver].
    unfold KernelStatus.on_session_signal, KernelStatus.on_model.
    destruct (KernelStatus.model w).
    + destruct (emit_kernelChanged s newValue dn _) as [[] σ0]. eauto.
    + eauto.
Qed.

(** ** One session at a time *)

Lemma ok_from_app (a : gset (sid * SignalName * Slot)) (t1 t2 : list Effect) :
  ok_from a (t1 ++ t2) ↔ ok_from a t1 ∧ ok_from (foldl replay a t1) t2.
Proof.
  revert a. induction t1 as [|e t1 IH]; intros a; simpl.
  - tauto.
  - rewrite IH. tauto.
Qed.

Lemma active_app (t1 t2 : list Effect) :
  active (t1 ++ t2) = foldl replay (active t1) t2.
Proof. unfold active. apply foldl_app. Qed.

Lemma single_session_live (o : option sid) : single_session (live o).
Proof.
  unfold single_session, live. destruct o as [s|]; set_solver.
Qed.

Lemma ok_from_invoke (s : sid) (sig : SignalName) (slot : Slot)
    (o : option sid) :
  (s, sig, slot) ∈ live o →
  ok_from (live o) [Invoke s slot; StateChangedEmit].
Proof.
  intros Hin. pose proof (single_session_live o) as Hone.
  simpl. unfold step_ok; simpl. repeat split; eauto.
Qed.

Lemma attached_only_initial (h : sid → IClientSession.t) :
  fresh h → attached_only (mkState initial h []).
Proof.
  intros Hfresh. unfold attached_only, session, initial; simpl.
  repeat split; try (intros Hin; exfalso; revert Hin; apply Hfresh);
    discriminate.
Qed.

Lemma attached_only_set_session (new : option sid) (σ : State) :
  attached_only σ → attached_only (exec (set_session new) σ).
Proof.
  intros (Hst & Hke & Hact & Hok). unfold attached_only.
  rewrite set_session_session, set_session_trace.
  split; [| split; [| split] ].
  - intros i. rewrite set_session_statusChanged. cbn zeta.
    specialize (Hst i).
    repeat case_decide; set_solver.
  - intros i. rewrite set_session_kernelChanged. cbn zeta.
    specialize (Hke i).
    repeat case_decide; set_solver.
  - rewrite active_app, Hact.
    destruct (session σ) as [o|], new as [s|]; simpl; set_solver.
  - unfold one_session_at_a_time in *. apply ok_from_app. split; [exact Hok |].
    fold (active (trace σ)). rewrite Hact.
    destruct (session σ) as [o|], new as [s|]; simpl;
      unfold step_ok, single_session; simpl; repeat split; set_solver.
Qed.

Lemma attached_only_statusChanged (s : sid) (v : string) (σ : State) :
  attached_only σ → attached_only (exec (emit_statusChanged s v) σ).
Proof.
  intros (Hst & Hke & Hact & Hok).
  destruct (decide (OnKernelStatusChanged ∈
                      IClientSession.statusChanged (sessions σ s))) as [Hin|Hout].
  - rewrite emit_statusChanged_connected by exact Hin.
    unfold attached_only, session in *; simpl.
    split; [| split; [| split] ].
    + intros i. rewrite <- Hst. fn_cases; reflexivity.
    + intros i. rewrite <- Hke. fn_cases; reflexivity.
    + rewrite active_app, Hact. reflexivity.
    + unfold one_session_at_a_time in *. apply ok_from_app.
      split; [exact Hok |]. fold (active (trace σ)). rewrite Hact.
      apply Hst in Hin. rewrite Hin.
      apply (ok_from_invoke s StatusChanged _ (Some s)). set_solver.
  - rewrite emit_statusChanged_not_connected by exact Hout.
    unfold attached_only, session in *; simpl.
    split; [| split; [| split] ]; try assumption.
    + intros i. rewrite <- Hst. fn_cases; reflexivity.
    + intros i. rewrite <- Hke. fn_cases; reflexivity.
Qed.

Lemma attached_only_kernelChanged (s : sid)
    (newValue : option Kernel.IKernelConnection) (displayName : string)
    (σ : State) :
  attached_only σ →
  attached_only (exec (emit_kernelChanged s newValue displayName) σ).
Proof.
  intros (Hst & Hke & Hact & Hok).
  assert (Hrecv : ∀ i,
    IClientSession.statusChanged
      (sessions (exec (emit_kernelChanged s newValue displayName) σ) i) =
    IClientSession.statusChanged (sessions σ i) ∧
    IClientSession.kernelChanged
      (sessions (exec (emit_kernelChanged s newValue displayName) σ) i) =
    IClientSession.kernelChanged (sessions σ i)).
  { intros i. rewrite emit_kernelChanged_sessions. unfold after_kernel_change.
    fn_cases; split; reflexivity. }
  destruct (decide (OnKernelChanged ∈
                      IClientSession.kernelChanged (sessions σ s))) as [Hin|Hout].
  - destruct (emit_kernelChanged_connected σ s newValue displayName Hin)
      as [Hthis Htr].
    unfold attached_only, session in *. rewrite Hthis, Htr. simpl.
    split; [| split; [| split] ].
    + intros i. destruct (Hrecv i) as [-> _]. apply Hst.
    + intros i. destruct (Hrecv i) as [_ ->]. apply Hke.
    + rewrite active_app, Hact. reflexivity.
    + unfold one_session_at_a_time in *. apply ok_from_app.
      split; [exact Hok |]. fold (active (trace σ)). rewrite Hact.
      apply Hke in Hin. rewrite Hin.
      apply (ok_from_invoke s KernelChanged _ (Some s)). set_solver.
  - destruct (emit_kernelChanged_not_connected σ s newValue displayName Hout)
      as [Hthis Htr].
    unfold attached_only, session in *. rewrite Hthis, Htr.
    split; [| split; [| split] ]; try assumption.
    + intros i. destruct (Hrecv i) as [-> _]. apply Hst.
    + intros i. destruct (Hrecv i) as [_ ->]. apply Hke.
Qed.

Lemma attached_only_perform_all (ops : list Op) (σ : State) :
  attached_only σ → attached_only (perform_all ops σ).
Proof.
  revert σ. induction ops as [|op ops IH]; intros σ Hinv; [exact Hinv |].
  apply IH. destruct op; simpl.
  - apply attached_only_set_session, Hinv.
  - apply attached_only_statusChanged, Hinv.
  - apply attached_only_kernelChanged, Hinv.
Qed.

Lemma attached_only_new (first : option sid) (h : sid → IClientSession.t) :
  fresh h → attached_only (new first h []).
Proof.
  intros Hfresh. apply attached_only_set_session, attached_only_initial, Hfresh.
Qed.

(** C1.  Take a new model and let anything happen to it: sessions attached or
    taken away, session signals fired.  All along its trace the live
    connections of the model are on one session at most, and a slot of the
    model only ever runs for the session attached at that moment.  In the
    state reached the model listens to a session exactly when it is the one
    attached.  When a session [T] is then attached in place of a session [S],
    the two slots are disconnected from [S] before they are connected to [T];
    and once [T] is attached, a signal of any other session [S] runs no slot
    of the model and leaves the model as it is. *)
Theorem one_session_observed (h : sid → IClientSession.t)
    (first : option sid) (ops : list Op) :
  fresh h →
  let σ := perform_all ops (new first h []) in
  one_session_at_a_time (trace σ) ∧
  (∀ i, observes σ i ↔ session σ = Some i) ∧
  (∀ S T, session σ = Some S →
     trace (exec (set_session (Some T)) σ) =
     trace σ ++ [Disconnect S StatusChanged OnKernelStatusChanged;
                 Disconnect S KernelChanged OnKernelChanged;
                 Connect T StatusChanged OnKernelStatusChanged;
                 Connect T KernelChanged OnKernelChanged;
                 StateChangedEmit]) ∧
  (∀ S T, S ≠ T →
     let σT := exec (set_session (Some T)) σ in
     ¬ observes σT S ∧
     (∀ v, this (exec (emit_statusChanged S v) σT) = this σT ∧
           trace (exec (emit_statusChanged S v) σT) = trace σT) ∧
     (∀ newValue displayName,
        this (exec (emit_kernelChanged S newValue displayName) σT) = this σT ∧
        trace (exec (emit_kernelChanged S newValue displayName) σT) = trace σT)).
Proof.
  intros Hfresh σ.
  assert (Hinv : attached_only σ)
    by (apply attached_only_perform_all, attached_only_new, Hfresh).
  split; [apply Hinv |]. split; [| split].
  - intros i. destruct Hinv as (Hst & Hke & _). unfold observes.
    rewrite Hst, Hke. tauto.
  - intros S T HS. rewrite set_session_trace, HS. reflexivity.
  - intros S T Hne σT.
    assert (HinvT : attached_only σT) by (apply attached_only_set_session, Hinv).
    destruct HinvT as (Hst & Hke & _).
    assert (Hcur : session σT ≠ Some S).
    { unfold σT. rewrite set_session_session. congruence. }
    assert (Hout1 : OnKernelStatusChanged ∉
                      IClientSession.statusChanged (sessions σT S))
      by (rewrite Hst; exact Hcur).
    assert (Hout2 : OnKernelChanged ∉
                      IClientSession.kernelChanged (sessions σT S))
      by (rewrite Hke; exact Hcur).
    split; [| split].
    + unfold observes. tauto.
    + intros v. rewrite emit_statusChanged_not_connected by exact Hout1.
      split; reflexivity.
    + intros newValue displayName.
      apply emit_kernelChanged_not_connected, Hout2.
Qed.

(** ** The widget *)

Section WidgetFacts.

Variable interactiveItem : string.

Import KernelStatus.

Ltac widget_run :=
  cbv [shell_currentWidget commands_execute
       addClass removeClass onUpdateRequest _handleClick _onNotebookChange
       _onConsoleChange _onMainAreaCurrentChange shell_focus
       mbind mret W_bind W_ret KernelStatus.bind KernelStatus.ret].

Lemma on_model_some {A} (m : Model.M A) (w : KernelStatus.t) (mo : Model.t) :
  model w = Some mo →
  on_model m w =
  Ok ((m (view mo w)).1,
      mk (Some (Model.this (m (view mo w)).2)) (classes w) (currentWidget w)
         (executed w) (Model.sessions (m (view mo w)).2)
         (Model.trace (m (view mo w)).2)).
Proof.
  intros Hmo. unfold on_model. rewrite Hmo.
  destruct (m _) as [a σ']. reflexivity.
Qed.

Lemma model_type_some (w : KernelStatus.t) (mo : Model.t) :
  model w = Some mo → model_type w = Ok (Model.type (view mo w), w).
Proof.
  intros Hmo. unfold model_type. rewrite (on_model_some _ w mo Hmo).
  destruct w; simpl in *. rewrite Hmo. reflexivity.
Qed.

Lemma set_model_session_some (new : option sid) (w : KernelStatus.t)
    (mo : Model.t) :
  model w = Some mo →
  let σ' := Model.exec (Model.set_session new) (view mo w) in
  set_model_session new w =
  Ok (tt, mk (Some (Model.this σ')) (classes w) (currentWidget w)
             (executed w) (Model.sessions σ') (Model.trace σ')).
Proof.
  intros Hmo. cbn zeta. unfold set_model_session.
  rewrite (on_model_some _ w mo Hmo). unfold Model.exec.
  destruct (Model.set_session new (view mo w)) as [[] σ']. reflexivity.
Qed.

Lemma _onNotebookChange_some (panel : option NotebookPanel.t)
    (w : KernelStatus.t) (mo : Model.t) :
  model w = Some mo →
  ∃ w' m', _onNotebookChange interactiveItem panel w = Ok (tt, w') ∧
           model w' = Some m' ∧
           Model._session m' = NotebookPanel.session <$> panel ∧
           classes w' = classes w ∪ {[ interactiveItem ]} ∧
           currentWidget w' = currentWidget w ∧ executed w' = executed w.
Proof.
  intros Hmo. widget_run.
  rewrite (set_model_session_some _ w mo Hmo). cbn.
  do 2 eexists. split; [reflexivity |]. cbn.
  split; [reflexivity |]. split; [| auto].
  apply (set_session_session _ (view mo w)).
Qed.

Lemma _onConsoleChange_some (panel : option ConsolePanel.t)
    (w : KernelStatus.t) (mo : Model.t) :
  model w = Some mo →
  ∃ w' m', _onConsoleChange interactiveItem panel w = Ok (tt, w') ∧
           model w' = Some m' ∧
           Model._session m' = ConsolePanel.session <$> panel ∧
           classes w' = classes w ∖ {[ interactiveItem ]} ∧
           currentWidget w' = currentWidget w ∧ executed w' = executed w.
Proof.
  intros Hmo. widget_run.
  rewrite (set_model_session_some _ w mo Hmo). cbn.
  do 2 eexists. split; [reflexivity |]. cbn.
  split; [reflexivity |]. split; [| auto].
  apply (set_session_session _ (view mo w)).
Qed.

Lemma _onMainAreaCurrentChange_some (newValue : option Widget)
    (w : KernelStatus.t) (mo : Model.t) :
  model w = Some mo →
  ∃ w' m', _onMainAreaCurrentChange newValue w = Ok (tt, w') ∧
           model w' = Some m' ∧
           Model._session m' = _getFocusedSession newValue ∧
           classes w' = classes w ∧
           currentWidget w' = currentWidget w ∧ executed w' = executed w.
Proof.
  intros Hmo. widget_run.
  rewrite (set_model_session_some _ w mo Hmo). cbn.
  do 2 eexists. split; [reflexivity |]. cbn.
  split; [reflexivity |]. split; [| auto].
  apply (set_session_session _ (view mo w)).
Qed.

Lemma onUpdateRequest_some (w : KernelStatus.t) (mo : Model.t) :
  model w = Some mo →
  ∃ w' m' ty, onUpdateRequest interactiveItem w = Ok (tt, w') ∧
              model w' = Some m' ∧
              Model._session m' = _getFocusedSession (currentWidget w) ∧
              model_type w' = Ok (ty, w') ∧
              classes w' = (if decide (ty = Some "notebook")
                            then classes w ∪ {[ interactiveItem ]}
                            else classes w ∖ {[ interactiveItem ]}) ∧
              currentWidget w' = currentWidget w ∧ executed w' = executed w.
Proof.
  intros Hmo. widget_run.
  rewrite (set_model_session_some _ w mo Hmo). cbn beta iota zeta.
  set (σ' := Model.exec _ (view mo w)).
  set (w1 := mk _ _ _ _ _ _).
  rewrite (model_type_some w1 (Model.this σ') eq_refl).
  cbn beta iota.
  set (ty := Model.type (view (Model.this σ') w1)).
  set (w2 := mk (Some (Model.this σ'))
                (if decide (ty = Some "notebook")
                 then classes w ∪ {[ interactiveItem ]}
                 else classes w ∖ {[ interactiveItem ]})
                (currentWidget w) (executed w)
                (Model.sessions σ') (Model.trace σ')).
  exists w2, (Model.this σ'), ty.
  split; [unfold w2; destruct (decide _); reflexivity |].
  split; [reflexivity |].
  split; [apply (set_session_session _ (view mo w)) |].
  split; [| auto].
  rewrite (model_type_some w2 (Model.this σ') eq_refl). reflexivity.
Qed.

Lemma _handleClick_some (w : KernelStatus.t) (mo : Model.t) :
  model w = Some mo →
  ∃ ty, model_type w = Ok (ty, w) ∧
        _handleClick w =
        Ok (tt, if decide (ty = Some "notebook")
                then mk (model w) (classes w) (currentWidget w)
                        (executed w ++ ["notebook:change-kernel"])
                        (sessions w) (trace w)
                else w).
Proof.
  intros Hmo. widget_run. rewrite (model_type_some w mo Hmo).
  eexists. split; [reflexivity |]. cbn beta iota.
  destruct (decide _); reflexivity.
Qed.

Lemma shell_focus_then (newValue : option Widget) (k : W unit)
    (w : KernelStatus.t) :
  (shell_focus newValue ;; k) w =
  k (mk (model w) (classes w) newValue (executed w) (sessions w) (trace w)).
Proof. reflexivity. Qed.

Lemma MainAreaCurrentChanged_some (newValue : option Widget)
    (w : KernelStatus.t) (mo : Model.t) :
  model w = Some mo →
  ∃ w' m', deliver interactiveItem (MainAreaCurrentChanged newValue) w =
             Ok (tt, w') ∧
           model w' = Some m' ∧
           Model._session m' = _getFocusedSession newValue ∧
           classes w' = classes w ∧
           currentWidget w' = newValue ∧ executed w' = executed w.
Proof.
  intros Hmo. cbn [deliver]. rewrite shell_focus_then.
  apply (_onMainAreaCurrentChange_some newValue
           (mk (model w) (classes w) newValue (executed w) (sessions w)
               (trace w)) mo Hmo).
Qed.

Lemma on_session_signal_some (m : Model.M unit) (w : KernelStatus.t)
    (mo : Model.t) :
  model w = Some mo →
  ∃ w' m', on_session_signal m w = Ok (tt, w') ∧ model w' = Some m'.
Proof.
  intros Hmo. unfold on_session_signal. rewrite Hmo.
  rewrite (on_model_some m w mo Hmo).
  destruct (m (view mo w)) as [[] σ']. eauto.
Qed.

Lemma deliver_some (e : Event) (w : KernelStatus.t) (mo : Model.t) :
  model w = Some mo →
  ∃ w' m', deliver interactiveItem e w = Ok (tt, w') ∧ model w' = Some m'.
Proof.
  intros Hmo. destruct e as [panel|panel|newValue| | |s v|s k dn].
  - destruct (_onNotebookChange_some panel w mo Hmo) as (w' & m' & ? & ? & _).
    eauto.
  - destruct (_onConsoleChange_some panel w mo Hmo) as (w' & m' & ? & ? & _).
    eauto.
  - destruct (MainAreaCurrentChanged_some newValue w mo Hmo)
      as (w' & m' & ? & ? & _).
    eauto.
  - destruct (onUpdateRequest_some w mo Hmo) as (w' & m' & ty & ? & ? & _).
    eauto.
  - destruct (_handleClick_some w mo Hmo) as (ty & _ & Hclick).
    cbn [deliver]. rewrite Hclick.
    destruct (decide _); eauto.
  - apply (on_session_signal_some _ w mo Hmo).
  - apply (on_session_signal_some _ w mo Hmo).
Qed.

Lemma run_some (events : list Event) (w : KernelStatus.t) (mo : Model.t) :
  model w = Some mo →
  ∃ w' m', run interactiveItem events w = Ok w' ∧ model w' = Some m'.
Proof.
  revert w mo. induction events as [|e events IH]; intros w mo Hmo.
  - simpl. eauto.
  - destruct (deliver_some e w mo Hmo) as (w1 & m1 & He & Hm1).
    simpl. rewrite He. apply (IH w1 m1 Hm1).
Qed.

Lemma new_some (shell : option Widget) (h : sid → IClientSession.t)
    (tr : list Effect) :
  let σ := Model.new (_getFocusedSession shell) h tr in
  ∃ w0, KernelStatus.new interactiveItem shell h tr = Ok w0 ∧
        model w0 = Some (Model.this σ) ∧
        sessions w0 = Model.sessions σ ∧ trace w0 = Model.trace σ ∧
        currentWidget w0 = shell ∧ executed w0 = [] ∧
        classes w0 = (if decide (Model.type σ = Some "notebook")
                      then ∅ ∪ {[ interactiveItem ]} else ∅).
Proof.
  intros σ. unfold KernelStatus.new. widget_run. fold σ.
  set (w := mk (Some (Model.this σ)) ∅ shell [] (Model.sessions σ)
               (Model.trace σ)).
  rewrite (model_type_some w (Model.this σ) eq_refl). cbn beta iota.
  change (Model.type (view (Model.this σ) w)) with (Model.type σ).
  destruct (decide _); unfold addClass; eexists;
    (split; [reflexivity |]); repeat split; reflexivity.
Qed.

(** Every state the widget reaches has its model. *)
Lemma reached (shell : option Widget) (h : sid → IClientSession.t)
    (tr : list Effect) (events : list Event) :
  ∃ w0 w mo, KernelStatus.new interactiveItem shell h tr = Ok w0 ∧
             run interactiveItem events w0 = Ok w ∧ model w = Some mo.
Proof.
  destruct (new_some shell h tr) as (w0 & Hnew & Hm0 & _).
  destruct (run_some events w0 _ Hm0) as (w & mo & Hrun & Hmo).
  eauto 6.
Qed.

End WidgetFacts.

(** C4.  Build the widget and deliver it any events.  Whatever focus change
    comes next, the model's session afterwards is the session of the focused
    panel when the focused widget is a notebook panel or a console panel, and
    none when it is another widget or no widget: so for a change of the
    current notebook, of the current console, and of the shell's current
    widget; an update request resolves the shell's current widget the same
    way. *)
Theorem focused_session (interactiveItem : string) (shell : option Widget)
    (h : sid → IClientSession.t) (tr : list Effect)
    (events : list KernelStatus.Event) :
  ∃ w0 w,
    KernelStatus.new interactiveItem shell h tr = Ok w0 ∧
    KernelStatus.run interactiveItem events w0 = Ok w ∧
    (∀ panel, ∃ w' m',
       KernelStatus.deliver interactiveItem
         (KernelStatus.NotebookChanged panel) w = Ok (tt, w') ∧
       KernelStatus.model w' = Some m' ∧
       _session m' = match panel with
                     | Some p => Some (NotebookPanel.session p)
                     | None => None
                     end) ∧
    (∀ panel, ∃ w' m',
       KernelStatus.deliver interactiveItem
         (KernelStatus.ConsoleChanged panel) w = Ok (tt, w') ∧
       KernelStatus.model w' = Some m' ∧
       _session m' = match panel with
                     | Some p => Some (ConsolePanel.session p)
                     | None => None
                     end) ∧
    (∀ newValue, ∃ w' m',
       KernelStatus.deliver interactiveItem
         (KernelStatus.MainAreaCurrentChanged newValue) w = Ok (tt, w') ∧
       KernelStatus.model w' = Some m' ∧
       KernelStatus.currentWidget w' = newValue ∧
       _session m' = match newValue with
                     | Some (IsNotebookPanel p) => Some (NotebookPanel.session p)
                     | Some (IsConsolePanel p) => Some (ConsolePanel.session p)
                     | Some (OtherWidget _) => None
                     | None => None
                     end) ∧
    (∃ w' m',
       KernelStatus.deliver interactiveItem KernelStatus.UpdateRequest w =
         Ok (tt, w') ∧
       KernelStatus.model w' = Some m' ∧
       _session m' = match KernelStatus.currentWidget w with
                     | Some (IsNotebookPanel p) => Some (NotebookPanel.session p)
                     | Some (IsConsolePanel p) => Some (ConsolePanel.session p)
                     | Some (OtherWidget _) => None
                     | None => None
                     end).
Proof.
  destruct (reached interactiveItem shell h tr events)
    as (w0 & w & mo & Hnew & Hrun & Hmo).
  exists w0, w. split; [exact Hnew |]. split; [exact Hrun |].
  split; [| split; [| split] ].
  - intros panel.
    destruct (_onNotebookChange_some interactiveItem panel w mo Hmo)
      as (w' & m' & He & Hm' & Hs & _).
    exists w', m'. rewrite Hs. destruct panel; auto.
  - intros panel.
    destruct (_onConsoleChange_some interactiveItem panel w mo Hmo)
      as (w' & m' & He & Hm' & Hs & _).
    exists w', m'. rewrite Hs. destruct panel; auto.
  - intros newValue.
    destruct (MainAreaCurrentChanged_some interactiveItem newValue w mo Hmo)
      as (w' & m' & He & Hm' & Hs & _ & Hcw & _).
    exists w', m'. rewrite Hs. destruct newValue as [[| |]|]; auto.
  - destruct (onUpdateRequest_some interactiveItem w mo Hmo)
      as (w' & m' & ty & He & Hm' & Hs & _).
    exists w', m'. rewrite Hs.
    destruct (KernelStatus.currentWidget w) as [[| |]|]; auto.
Qed.

(** C7.  With a model whose name is [n] and whose status is [s], [render]
    gives the text item whose label is the title-cased [n], a space, a
    vertical bar, a space and the title-cased [s], whatever [titleCase] is;
    without a model it gives nothing.  With title-casing as the spec has it,
    the name "python3" and the status "idle" are shown as "Python3 | Idle",
    and so is a notebook focused at construction whose session is idle on a
    kernel displayed as "python3", a name that [toLowerCase] leaves as it
    is. *)
Theorem render_label :
  (∀ (titleCase : string → string) (w : KernelStatus.t),
     KernelStatus.render titleCase w =
     match KernelStatus.model w with
     | None => None
     | Some m =>
         Some {| onClick := HandleClick;
                 title := "Current active kernel";
                 source := titleCase (_kernelName m) +:+
                           String " " (String "|" (String " " EmptyString)) +:+
                           titleCase (_kernelStatus m) |}
     end) ∧
  (∀ (session : option sid) (classes : gset string)
     (currentWidget : option Widget) (executed : list string)
     (h : sid → IClientSession.t) (tr : list Effect),
     KernelStatus.render TextExt.titleCase
       (KernelStatus.mk (Some (Model.mk "python3" "idle" session)) classes
          currentWidget executed h tr) =
     Some {| onClick := HandleClick;
             title := "Current active kernel";
             source := "Python3 | Idle" |}) ∧
  (∀ (interactiveItem type : string) (statusChanged kernelChanged : gset Slot)
     (a : sid) (tr : list Effect),
     toLowerCase "python3" = "python3" →
     ∃ w0,
       KernelStatus.new interactiveItem
         (Some (IsNotebookPanel {| NotebookPanel.session := a |}))
         (fun _ => IClientSession.mk "idle" "python3" type statusChanged
                     kernelChanged) tr = Ok w0 ∧
       KernelStatus.render TextExt.titleCase w0 =
       Some {| onClick := HandleClick;
               title := "Current active kernel";
               source := "Python3 | Idle" |}).
Proof.
  split; [| split].
  - intros titleCase w. unfold KernelStatus.render.
    destruct (KernelStatus.model w); reflexivity.
  - reflexivity.
  - intros ii ty r1 r2 a tr Hlow.
    destruct (new_some ii (Some (IsNotebookPanel {| NotebookPanel.session := a |}))
                (fun _ => IClientSession.mk "idle" "python3" ty r1 r2) tr)
      as (w0 & Hnew & Hm0 & _).
    exists w0. split; [exact Hnew |].
    unfold KernelStatus.render. rewrite Hm0.
    unfold Model.new. rewrite set_session_this. simpl. rewrite Hlow.
    reflexivity.
Qed.

(** C8.  In every state the widget reaches, a click runs the command
    "notebook:change-kernel" once when the type of the model is "notebook",
    and runs no command, changing nothing, for any other type or for none. *)
Theorem click_changes_kernel (interactiveItem : string)
    (shell : option Widget) (h : sid → IClientSession.t) (tr : list Effect)
    (events : list KernelStatus.Event) :
  ∃ w0 w ty w',
    KernelStatus.new interactiveItem shell h tr = Ok w0 ∧
    KernelStatus.run interactiveItem events w0 = Ok w ∧
    KernelStatus.model_type w = Ok (ty, w) ∧
    KernelStatus.deliver interactiveItem KernelStatus.Click w = Ok (tt, w') ∧
    KernelStatus.executed w' =
      KernelStatus.executed w ++
      (if decide (ty = Some "notebook") then ["notebook:change-kernel"] else []) ∧
    KernelStatus.model w' = KernelStatus.model w ∧
    KernelStatus.classes w' = KernelStatus.classes w ∧
    KernelStatus.currentWidget w' = KernelStatus.currentWidget w ∧
    KernelStatus.sessions w' = KernelStatus.sessions w ∧
    KernelStatus.trace w' = KernelStatus.trace w.
Proof.
  destruct (reached interactiveItem shell h tr events)
    as (w0 & w & mo & Hnew & Hrun & Hmo).
  destruct (_handleClick_some w mo Hmo) as (ty & Hty & Hclick).
  exists w0, w, ty. eexists.
  split; [exact Hnew |]. split; [exact Hrun |]. split; [exact Hty |].
  split; [exact Hclick |].
  destruct (decide _); simpl; rewrite ?app_nil_r; repeat split; reflexivity.
Qed.

(** C9.  In every state the widget reaches: after a change of the current
    notebook, to any panel or to none, the widget has the interactive class;
    after a change of the current console it does not have it; after an
    update request it has it exactly when the type of the model is
    "notebook". *)
Theorem interactive_class (interactiveItem : string)
    (shell : option Widget) (h : sid → IClientSession.t) (tr : list Effect)
    (events : list KernelStatus.Event) :
  ∃ w0 w,
    KernelStatus.new interactiveItem shell h tr = Ok w0 ∧
    KernelStatus.run interactiveItem events w0 = Ok w ∧
    (∀ panel, ∃ w',
       KernelStatus.deliver interactiveItem
         (KernelStatus.NotebookChanged panel) w = Ok (tt, w') ∧
       interactiveItem ∈ KernelStatus.classes w') ∧
    (∀ panel, ∃ w',
       KernelStatus.deliver interactiveItem
         (KernelStatus.ConsoleChanged panel) w = Ok (tt, w') ∧
       interactiveItem ∉ KernelStatus.classes w') ∧
    (∃ w' ty,
       KernelStatus.deliver interactiveItem KernelStatus.UpdateRequest w =
         Ok (tt, w') ∧
       KernelStatus.model_type w' = Ok (ty, w') ∧
       (interactiveItem ∈ KernelStatus.classes w' ↔ ty = Some "notebook")).
Proof.
  destruct (reached interactiveItem shell h tr events)
    as (w0 & w & mo & Hnew & Hrun & Hmo).
  exists w0, w. split; [exact Hnew |]. split; [exact Hrun |].
  split; [| split].
  - intros panel.
    destruct (_onNotebookChange_some interactiveItem panel w mo Hmo)
      as (w' & m' & He & _ & _ & Hcl & _).
    exists w'. split; [exact He |]. rewrite Hcl. set_solver.
  - intros panel.
    destruct (_onConsoleChange_some interactiveItem panel w mo Hmo)
      as (w' & m' & He & _ & _ & Hcl & _).
    exists w'. split; [exact He |]. rewrite Hcl. set_solver.
  - destruct (onUpdateRequest_some interactiveItem w mo Hmo)
      as (w' & m' & ty & He & _ & _ & Hty & Hcl & _).
    exists w', ty. split; [exact He |]. split; [exact Hty |].
    rewrite Hcl. destruct (decide _); set_solver.
Qed.

(** * More of the code *)

(** ** What the setter leaves alone *)

(** X1.  The setter changes nothing of the host's sessions but the presence
    of the model's own two slots, each on its own signal: the status, the
    display name and the type of every session stay, every other slot stays
    connected or not as it was, and a session that is neither the one
    detached nor the one attached is the same object as before. *)
Theorem set_session_frame (σ : State) (new : option sid) (i : sid) :
  let o := sessions σ i in
  let o' := sessions (exec (set_session new) σ) i in
  IClientSession.status o' = IClientSession.status o ∧
  IClientSession.kernelDisplayName o' = IClientSession.kernelDisplayName o ∧
  IClientSession.type o' = IClientSession.type o ∧
  (∀ slot, slot ≠ OnKernelStatusChanged →
     (slot ∈ IClientSession.statusChanged o' ↔
      slot ∈ IClientSession.statusChanged o)) ∧
  (∀ slot, slot ≠ OnKernelChanged →
     (slot ∈ IClientSession.kernelChanged o' ↔
      slot ∈ IClientSession.kernelChanged o)) ∧
  (session σ ≠ Some i → new ≠ Some i → o' = o).
Proof.
  cbn zeta.
  pose proof (set_session_attributes new σ i) as (Hst & Hdn & Hty).
  cbn zeta in Hst, Hdn, Hty.
  pose proof (set_session_statusChanged new σ i) as Hs.
  pose proof (set_session_kernelChanged new σ i) as Hk.
  cbn zeta in Hs, Hk.
  split; [exact Hst |]. split; [exact Hdn |]. split; [exact Hty |].
  split; [| split].
  - intros slot Hne. rewrite Hs. repeat case_decide; set_solver.
  - intros slot Hne. rewrite Hk. repeat case_decide; set_solver.
  - intros Hold Hnew. apply session_object_eq; try assumption.
    + rewrite Hs. rewrite !decide_False by assumption. reflexivity.
    + rewrite Hk. rewrite !decide_False by assumption. reflexivity.
Qed.

(** ** What the model always shows *)

Lemma lower_ascii_idem (c : ascii) : lower_ascii (lower_ascii c) = lower_ascii c.
Proof. destruct c as [[] [] [] [] [] [] [] []]; reflexivity. Qed.

Lemma ascii_toLowerCase_idem (s : string) :
  ascii_toLowerCase (ascii_toLowerCase s) = ascii_toLowerCase s.
Proof.
  induction s as [|c s IH]; simpl; [reflexivity |].
  rewrite lower_ascii_idem, IH. reflexivity.
Qed.

Section NoCapitals.

(** What [toLowerCase] returns has no letter from A to Z left. *)
Hypothesis no_capitals : ∀ s, ascii_toLowerCase (toLowerCase s) = toLowerCase s.

Lemma kernel_name_lower (newValue : option Kernel.IKernelConnection) :
  ascii_toLowerCase (kernel_name newValue) = kernel_name newValue.
Proof. destruct newValue; simpl; [apply no_capitals | reflexivity]. Qed.

Lemma lower_name_set_session (new : option sid) (σ : State) :
  lower_name (exec (set_session new) σ).
Proof.
  unfold lower_name, name. rewrite set_session_this.
  destruct new; simpl; [apply no_capitals | reflexivity].
Qed.

Lemma lower_name_perform (op : Op) (σ : State) :
  lower_name σ → lower_name (exec (perform op) σ).
Proof.
  intros Hlow. destruct op as [new|s v|s k dn]; simpl.
  - apply lower_name_set_session.
  - destruct (decide (OnKernelStatusChanged ∈
                        IClientSession.statusChanged (sessions σ s))) as [Hin|Hout].
    + rewrite emit_statusChanged_connected by exact Hin. exact Hlow.
    + rewrite emit_statusChanged_not_connected by exact Hout. exact Hlow.
  - unfold lower_name, name in *.
    destruct (decide (OnKernelChanged ∈
                        IClientSession.kernelChanged (sessions σ s))) as [Hin|Hout].
    + destruct (emit_kernelChanged_connected σ s k dn Hin) as [-> _].
      apply kernel_name_lower.
    + destruct (emit_kernelChanged_not_connected σ s k dn Hout) as [-> _].
      exact Hlow.
Qed.

Lemma lower_name_perform_all (ops : list Op) (σ : State) :
  lower_name σ → lower_name (perform_all ops σ).
Proof.
  revert σ. induction ops as [|op ops IH]; intros σ Hlow; [exact Hlow |].
  apply IH, lower_name_perform, Hlow.
Qed.

End NoCapitals.

Lemma defaults_set_session (new : option sid) (σ : State) :
  defaults_without_session (exec (set_session new) σ).
Proof.
  unfold defaults_without_session, session, name, status.
  rewrite set_session_this. destruct new; simpl; [discriminate | auto].
Qed.

Lemma defaults_perform (op : Op) (σ : State) :
  attached_only σ → defaults_without_session σ →
  defaults_without_session (exec (perform op) σ).
Proof.
  intros (Hst & Hke & _) Hdef. destruct op as [new|s v|s k dn]; simpl.
  - apply defaults_set_session.
  - destruct (decide (OnKernelStatusChanged ∈
                        IClientSession.statusChanged (sessions σ s))) as [Hin|Hout].
    + rewrite emit_statusChanged_connected by exact Hin.
      apply Hst in Hin. unfold defaults_without_session.
      change (session (mkState _ _ _)) with (session σ).
      rewrite Hin. discriminate.
    + rewrite emit_statusChanged_not_connected by exact Hout. exact Hdef.
  - unfold defaults_without_session, session, name, status in *.
    destruct (decide (OnKernelChanged ∈
                        IClientSession.kernelChanged (sessions σ s))) as [Hin|Hout].
    + destruct (emit_kernelChanged_connected σ s k dn Hin) as [-> _].
      apply Hke in Hin. simpl. unfold session. rewrite Hin. discriminate.
    + destruct (emit_kernelChanged_not_connected σ s k dn Hout) as [-> _].
      exact Hdef.
Qed.

Lemma attached_only_perform (op : Op) (σ : State) :
  attached_only σ → attached_only (exec (perform op) σ).
Proof.
  intros Hinv. destruct op; simpl.
  - apply attached_only_set_session, Hinv.
  - apply attached_only_statusChanged, Hinv.
  - apply attached_only_kernelChanged, Hinv.
Qed.

Lemma defaults_perform_all (ops : list Op) (σ : State) :
  attached_only σ → defaults_without_session σ →
  defaults_without_session (perform_all ops σ).
Proof.
  revert σ. induction ops as [|op ops IH]; intros σ Hinv Hdef; [exact Hdef |].
  apply IH; [apply attached_only_perform, Hinv | apply defaults_perform; assumption].
Qed.

(** ** The widget acts on its model through the setter and the slots *)

Section WidgetRuns.

Variable interactiveItem : string.

Import KernelStatus.

Ltac widget_steps :=
  cbv [shell_currentWidget commands_execute
       addClass removeClass onUpdateRequest _handleClick _onNotebookChange
       _onConsoleChange _onMainAreaCurrentChange shell_focus
       mbind mret W_bind W_ret KernelStatus.bind KernelStatus.ret].

Lemma state_eta (σ : Model.State) :
  Model.mkState (Model.this σ) (Model.sessions σ) (Model.trace σ) = σ.
Proof. destruct σ; reflexivity. Qed.

Lemma perform_all_app (ops1 ops2 : list Op) (σ : Model.State) :
  perform_all (ops1 ++ ops2) σ = perform_all ops2 (perform_all ops1 σ).
Proof. unfold perform_all. apply foldl_app. Qed.

Lemma clicks_app (es1 es2 : list Event) :
  clicks (es1 ++ es2) = clicks es1 + clicks es2.
Proof.
  induction es1 as [|e es1 IH]; [reflexivity |].
  destruct e; simpl; rewrite IH; reflexivity.
Qed.

(** One event: what it does to the model, to the shell's current widget and
    to the commands run. *)
Lemma deliver_view (e : Event) (w : KernelStatus.t) (mo : Model.t) :
  model w = Some mo →
  ∃ w' m' k,
    deliver interactiveItem e w = Ok (tt, w') ∧
    model w' = Some m' ∧
    view m' w' = perform_all (event_ops (currentWidget w) e) (view mo w) ∧
    currentWidget w' = shell_step (currentWidget w) e ∧
    (k ≤ clicks [e])%nat ∧
    executed w' = executed w ++ replicate k "notebook:change-kernel".
Proof.
  intros Hmo. destruct e as [panel|panel|newValue| | |s v|s nv dn];
    cbn [deliver event_ops shell_step clicks perform_all foldl perform].
  - widget_steps. rewrite (set_model_session_some _ w mo Hmo). cbn.
    eexists _, _, 0. repeat split; try reflexivity; try lia.
    + apply state_eta.
    + simpl. rewrite app_nil_r. reflexivity.
  - widget_steps. rewrite (set_model_session_some _ w mo Hmo). cbn.
    eexists _, _, 0. repeat split; try reflexivity; try lia.
    + apply state_eta.
    + simpl. rewrite app_nil_r. reflexivity.
  - rewrite shell_focus_then. widget_steps.
    erewrite set_model_session_some by exact Hmo. cbn.
    eexists _, _, 0. repeat split; try reflexivity; try lia.
    + apply state_eta.
    + simpl. rewrite app_nil_r. reflexivity.
  - destruct (onUpdateRequest_some interactiveItem w mo Hmo)
      as (w' & m' & ty & He & Hm' & _ & _ & _ & Hcw & Hex).
    revert He. widget_steps.
    rewrite (set_model_session_some _ w mo Hmo). cbn beta iota zeta.
    set (σ' := Model.exec _ (view mo w)).
    erewrite model_type_some by reflexivity. cbn beta iota.
    intros He. exists w', m', 0.
    split; [exact He |]. split; [exact Hm' |].
    split; [| split; [exact Hcw |]; split; [lia |];
              rewrite Hex; simpl; rewrite app_nil_r; reflexivity ].
    destruct (decide _); injection He as <-; simpl in Hm';
      injection Hm' as <-; apply state_eta.
  - destruct (_handleClick_some w mo Hmo) as (ty & _ & Hclick).
    rewrite Hclick. destruct (decide (ty = Some "notebook")).
    + eexists _, mo, 1. repeat split; try reflexivity; try lia.
      simpl. exact Hmo.
    + exists w, mo, 0. repeat split; try reflexivity; try lia; try exact Hmo.
      simpl. rewrite app_nil_r. reflexivity.
  - unfold on_session_signal. rewrite Hmo.
    rewrite (on_model_some _ w mo Hmo).
    destruct (Model.emit_statusChanged s v (view mo w)) as [[] σ'] eqn:Hrun.
    eexists _, _, 0. repeat split; try reflexivity; try lia.
    + unfold Model.exec. rewrite Hrun. apply state_eta.
    + simpl. rewrite app_nil_r. reflexivity.
  - unfold on_session_signal. rewrite Hmo.
    rewrite (on_model_some _ w mo Hmo).
    destruct (Model.emit_kernelChanged s nv dn (view mo w)) as [[] σ'] eqn:Hrun.
    eexists _, _, 0. repeat split; try reflexivity; try lia.
    + unfold Model.exec. rewrite Hrun. apply state_eta.
    + simpl. rewrite app_nil_r. reflexivity.
Qed.

Lemma run_view (events : list Event) (w : KernelStatus.t) (mo : Model.t) :
  model w = Some mo →
  ∃ w' m' k,
    run interactiveItem events w = Ok w' ∧
    model w' = Some m' ∧
    view m' w' = perform_all (run_ops (currentWidget w) events) (view mo w) ∧
    (k ≤ clicks events)%nat ∧
    executed w' = executed w ++ replicate k "notebook:change-kernel".
Proof.
  revert w mo. induction events as [|e events IH]; intros w mo Hmo.
  - exists w, mo, 0. simpl. rewrite app_nil_r. auto.
  - destruct (deliver_view e w mo Hmo)
      as (w1 & m1 & k1 & He & Hm1 & Hview1 & Hcw1 & Hk1 & Hex1).
    destruct (IH w1 m1 Hm1) as (w' & m' & k2 & Hrun & Hm' & Hview & Hk2 & Hex).
    exists w', m', (k1 + k2).
    split; [simpl; rewrite He; exact Hrun |]. split; [exact Hm' |].
    split; [| split].
    + rewrite Hview, Hview1, Hcw1. cbn [run_ops].
      rewrite perform_all_app. reflexivity.
    + change (e :: events) with ([e] ++ events). rewrite clicks_app. lia.
    + rewrite Hex, Hex1, replicate_add, app_assoc. reflexivity.
Qed.

Lemma new_view (shell : option Widget) (h : sid → IClientSession.t)
    (tr : list Effect) :
  ∃ w0 m0,
    KernelStatus.new interactiveItem shell h tr = Ok w0 ∧
    model w0 = Some m0 ∧
    view m0 w0 = Model.new (_getFocusedSession shell) h tr ∧
    currentWidget w0 = shell ∧ executed w0 = [].
Proof.
  destruct (new_some interactiveItem shell h tr)
    as (w0 & Hnew & Hm0 & Hs & Ht & Hcw & Hex & _).
  exists w0, (Model.this (Model.new (_getFocusedSession shell) h tr)).
  split; [exact Hnew |]. split; [exact Hm0 |].
  split; [| split; assumption].
  unfold view. rewrite Hs, Ht. apply state_eta.
Qed.

Lemma reached_view (shell : option Widget) (h : sid → IClientSession.t)
    (tr : list Effect) (events : list Event) :
  ∃ w0 w mo k,
    KernelStatus.new interactiveItem shell h tr = Ok w0 ∧
    run interactiveItem events w0 = Ok w ∧
    model w = Some mo ∧
    view mo w = perform_all (run_ops shell events)
                  (Model.new (_getFocusedSession shell) h tr) ∧
    (k ≤ clicks events)%nat ∧
    executed w = replicate k "notebook:change-kernel".
Proof.
  destruct (new_view shell h tr) as (w0 & m0 & Hnew & Hm0 & Hview0 & Hcw & Hex0).
  destruct (run_view events w0 m0 Hm0)
    as (w & mo & k & Hrun & Hmo & Hview & Hk & Hex).
  exists w0, w, mo, k. rewrite Hview, Hview0, Hcw, Hex, Hex0. auto 10.
Qed.

End WidgetRuns.

(** X2.  Whatever events the widget gets after its construction, it never
    fails, and its model is where the setter and the two slots take it: the
    model of the constructor, then the session set once for each focus event
    and update request, and the session signals, in the order of the
    events.  A click leaves the model, the sessions and the trace alone. *)
Theorem widget_runs_model (interactiveItem : string) (shell : option Widget)
    (h : sid → IClientSession.t) (tr : list Effect)
    (events : list KernelStatus.Event) :
  ∃ w0 w mo,
    KernelStatus.new interactiveItem shell h tr = Ok w0 ∧
    KernelStatus.run interactiveItem events w0 = Ok w ∧
    KernelStatus.model w = Some mo ∧
    KernelStatus.view mo w =
      perform_all (run_ops shell events)
        (Model.new (KernelStatus._getFocusedSession shell) h tr).
Proof.
  destruct (reached_view interactiveItem shell h tr events)
    as (w0 & w & mo & k & Hnew & Hrun & Hmo & Hview & _).
  exists w0, w, mo. auto.
Qed.

(** X3.  The only command the widget ever runs is "notebook:change-kernel",
    and it runs it at most once for each click: after any events the commands
    run are that command, as many times as there were clicks or fewer. *)
Theorem only_clicks_run_commands (interactiveItem : string)
    (shell : option Widget) (h : sid → IClientSession.t) (tr : list Effect)
    (events : list KernelStatus.Event) :
  ∃ w0 w k,
    KernelStatus.new interactiveItem shell h tr = Ok w0 ∧
    KernelStatus.run interactiveItem events w0 = Ok w ∧
    (k ≤ clicks events)%nat ∧
    KernelStatus.executed w = replicate k "notebook:change-kernel".
Proof.
  destruct (reached_view interactiveItem shell h tr events)
    as (w0 & w & mo & k & Hnew & Hrun & _ & _ & Hk & Hex).
  exists w0, w, k. auto.
Qed.

(** X4.  In a widget built on a store where no slot of its model is
    connected yet, after any events: all along the trace the model's
    connections were on one session at most and its slots only ran for the
    session attached at that moment, and the model listens to a session
    exactly when it is its current session. *)
Theorem widget_one_session (interactiveItem : string) (shell : option Widget)
    (h : sid → IClientSession.t) (events : list KernelStatus.Event) :
  fresh h →
  ∃ w0 w mo,
    KernelStatus.new interactiveItem shell h [] = Ok w0 ∧
    KernelStatus.run interactiveItem events w0 = Ok w ∧
    KernelStatus.model w = Some mo ∧
    one_session_at_a_time (KernelStatus.trace w) ∧
    (∀ i, observes (KernelStatus.view mo w) i ↔ _session mo = Some i).
Proof.
  intros Hfresh.
  destruct (reached_view interactiveItem shell h [] events)
    as (w0 & w & mo & k & Hnew & Hrun & Hmo & Hview & _).
  exists w0, w, mo. split; [exact Hnew |]. split; [exact Hrun |].
  split; [exact Hmo |].
  assert (Hinv : attached_only (KernelStatus.view mo w)).
  { rewrite Hview. apply attached_only_perform_all, attached_only_new, Hfresh. }
  destruct Hinv as (Hst & Hke & _ & Hok). split; [exact Hok |].
  intros i. unfold observes. rewrite Hst, Hke. unfold session; simpl. tauto.
Qed.

Lemma fresh_quiet_sessions : fresh quiet_sessions.
Proof.
  intros i. unfold quiet_sessions; simpl. split.
  - rewrite elem_of_singleton. discriminate.
  - apply not_elem_of_empty.
Qed.

(** X5.  In a widget built on a store where no slot of its model is
    connected yet, after any events: when the model has no session, its
    name and its status are "unknown", and the label shows the two
    title-cased.  A session that is no longer attached cannot put its
    status or its kernel there. *)
Theorem unknown_without_session (interactiveItem : string)
    (shell : option Widget) (h : sid → IClientSession.t)
    (events : list KernelStatus.Event) :
  fresh h →
  ∃ w0 w mo,
    KernelStatus.new interactiveItem shell h [] = Ok w0 ∧
    KernelStatus.run interactiveItem events w0 = Ok w ∧
    KernelStatus.model w = Some mo ∧
    (_session mo = None →
     _kernelName mo = "unknown" ∧ _kernelStatus mo = "unknown" ∧
     ∀ titleCase : string → string,
       source <$> KernelStatus.render titleCase w =
       Some (titleCase "unknown" +:+ " | " +:+ titleCase "unknown")).
Proof.
  intros Hfresh.
  destruct (reached_view interactiveItem shell h [] events)
    as (w0 & w & mo & k & Hnew & Hrun & Hmo & Hview & _).
  exists w0, w, mo. split; [exact Hnew |]. split; [exact Hrun |].
  split; [exact Hmo |]. intros Hnone.
  assert (Hdef : defaults_without_session (KernelStatus.view mo w)).
  { rewrite Hview. apply defaults_perform_all.
    - apply attached_only_new, Hfresh.
    - apply defaults_set_session. }
  destruct (Hdef Hnone) as [Hname Hstatus].
  unfold name, status in Hname, Hstatus; simpl in Hname, Hstatus.
  split; [exact Hname |]. split; [exact Hstatus |].
  intros titleCase. unfold KernelStatus.render. rewrite Hmo. simpl.
  rewrite Hname, Hstatus. reflexivity.
Qed.

(** X6.  After any events the name the model holds is in lower case, as far
    as the letters A to Z go: none of them is left in it, given that
    [toLowerCase] leaves none in what it returns. *)
Theorem name_is_lower_case (interactiveItem : string) (shell : option Widget)
    (h : sid → IClientSession.t) (tr : list Effect)
    (events : list KernelStatus.Event) :
  (∀ s, ascii_toLowerCase (toLowerCase s) = toLowerCase s) →
  ∃ w0 w mo,
    KernelStatus.new interactiveItem shell h tr = Ok w0 ∧
    KernelStatus.run interactiveItem events w0 = Ok w ∧
    KernelStatus.model w = Some mo ∧
    ascii_toLowerCase (_kernelName mo) = _kernelName mo.
Proof.
  intros Hcap.
  destruct (reached_view interactiveItem shell h tr events)
    as (w0 & w & mo & k & Hnew & Hrun & Hmo & Hview & _).
  exists w0, w, mo. split; [exact Hnew |]. split; [exact Hrun |].
  split; [exact Hmo |].
  assert (Hlow : lower_name (KernelStatus.view mo w)).
  { rewrite Hview.
    apply (lower_name_perform_all Hcap), (lower_name_set_session Hcap). }
  exact Hlow.
Qed.

Lemma attach_event_emits (interactiveItem : string) (e : KernelStatus.Event)
    (w : KernelStatus.t) (mo : Model.t) (x : option sid) :
  KernelStatus.model w = Some mo →
  event_ops (KernelStatus.currentWidget w) e = [Attach x] →
  ∃ w', KernelStatus.deliver interactiveItem e w = Ok (tt, w') ∧
        emits (KernelStatus.trace w') = S (emits (KernelStatus.trace w)).
Proof.
  intros Hmo Hops.
  destruct (deliver_view interactiveItem e w mo Hmo)
    as (w' & m' & k & He & _ & Hview & _).
  exists w'. split; [exact He |].
  change (KernelStatus.trace w') with (trace (KernelStatus.view m' w')).
  rewrite Hview, Hops. simpl. apply set_session_emits.
Qed.

(** X7.  In every state the widget reaches, each focus event and each
    update request makes the model emit exactly one "state changed"
    notification, whether or not anything changed; a click makes it emit
    none and leaves the trace as it is. *)
Theorem each_update_notifies (interactiveItem : string)
    (shell : option Widget) (h : sid → IClientSession.t) (tr : list Effect)
    (events : list KernelStatus.Event) :
  ∃ w0 w,
    KernelStatus.new interactiveItem shell h tr = Ok w0 ∧
    KernelStatus.run interactiveItem events w0 = Ok w ∧
    (∀ panel, ∃ w',
       KernelStatus.deliver interactiveItem
         (KernelStatus.NotebookChanged panel) w = Ok (tt, w') ∧
       emits (KernelStatus.trace w') = S (emits (KernelStatus.trace w))) ∧
    (∀ panel, ∃ w',
       KernelStatus.deliver interactiveItem
         (KernelStatus.ConsoleChanged panel) w = Ok (tt, w') ∧
       emits (KernelStatus.trace w') = S (emits (KernelStatus.trace w))) ∧
    (∀ newValue, ∃ w',
       KernelStatus.deliver interactiveItem
         (KernelStatus.MainAreaCurrentChanged newValue) w = Ok (tt, w') ∧
       emits (KernelStatus.trace w') = S (emits (KernelStatus.trace w))) ∧
    (∃ w',
       KernelStatus.deliver interactiveItem KernelStatus.UpdateRequest w =
         Ok (tt, w') ∧
       emits (KernelStatus.trace w') = S (emits (KernelStatus.trace w))) ∧
    (∃ w',
       KernelStatus.deliver interactiveItem KernelStatus.Click w =
         Ok (tt, w') ∧
       KernelStatus.trace w' = KernelStatus.trace w).
Proof.
  destruct (reached interactiveItem shell h tr events)
    as (w0 & w & mo & Hnew & Hrun & Hmo).
  exists w0, w. split; [exact Hnew |]. split; [exact Hrun |].
  split; [| split; [| split; [| split] ] ].
  - intros panel. eapply attach_event_emits; [exact Hmo | reflexivity].
  - intros panel. eapply attach_event_emits; [exact Hmo | reflexivity].
  - intros newValue. eapply attach_event_emits; [exact Hmo | reflexivity].
  - eapply attach_event_emits; [exact Hmo | reflexivity].
  - destruct (deliver_view interactiveItem KernelStatus.Click w mo Hmo)
      as (w' & m' & k & He & _ & Hview & _).
    exists w'. split; [exact He |].
    change (KernelStatus.trace w') with (trace (KernelStatus.view m' w')).
    rewrite Hview. reflexivity.
Qed.

Lemma set_session_again (s : option sid) (σ : State) :
  let σ1 := exec (set_session s) σ in
  let σ2 := exec (set_session s) σ1 in
  this σ2 = this σ1 ∧ (∀ i, sessions σ2 i = sessions σ1 i) ∧ type σ2 = type σ1.
Proof.
  cbn zeta.
  assert (Hthis : this (exec (set_session s) (exec (set_session s) σ)) =
                  this (exec (set_session s) σ)).
  { rewrite !set_session_this. destruct s as [s|]; [| reflexivity].
    pose proof (set_session_attributes (Some s) σ s) as (Hst & Hdn & _).
    cbn zeta in Hst, Hdn. rewrite Hst, Hdn. reflexivity. }
  assert (Hobj : ∀ i, sessions (exec (set_session s) (exec (set_session s) σ)) i
                      = sessions (exec (set_session s) σ) i).
  { intros i.
    pose proof (set_session_attributes s (exec (set_session s) σ) i)
      as (Hst & Hdn & Hty).
    apply session_object_eq; try assumption.
    - rewrite (set_session_statusChanged s (exec _ σ)). cbn zeta.
      rewrite set_session_session, set_session_statusChanged. cbn zeta.
      destruct (decide (s = Some i)); [apply reconnect_same | reflexivity].
    - rewrite (set_session_kernelChanged s (exec _ σ)). cbn zeta.
      rewrite set_session_session, set_session_kernelChanged. cbn zeta.
      destruct (decide (s = Some i)); [apply reconnect_same | reflexivity]. }
  split; [exact Hthis |]. split; [exact Hobj |].
  unfold type. rewrite Hthis.
  destruct (_session (this (exec (set_session s) σ))); [| reflexivity].
  rewrite Hobj. reflexivity.
Qed.

(** X8.  An update request that follows an update request finds everything
    in place: the model, the classes, every session object, the shell's
    current widget, the commands run and what is rendered are as the first
    one left them, and still the model emits "state changed" once more. *)
Theorem update_request_settles (interactiveItem : string)
    (shell : option Widget) (h : sid → IClientSession.t) (tr : list Effect)
    (events : list KernelStatus.Event) :
  ∃ w0 w w1 w2,
    KernelStatus.new interactiveItem shell h tr = Ok w0 ∧
    KernelStatus.run interactiveItem events w0 = Ok w ∧
    KernelStatus.deliver interactiveItem KernelStatus.UpdateRequest w =
      Ok (tt, w1) ∧
    KernelStatus.deliver interactiveItem KernelStatus.UpdateRequest w1 =
      Ok (tt, w2) ∧
    KernelStatus.model w2 = KernelStatus.model w1 ∧
    KernelStatus.classes w2 = KernelStatus.classes w1 ∧
    (∀ i, KernelStatus.sessions w2 i = KernelStatus.sessions w1 i) ∧
    KernelStatus.currentWidget w2 = KernelStatus.currentWidget w1 ∧
    KernelStatus.executed w2 = KernelStatus.executed w1 ∧
    (∀ titleCase, KernelStatus.render titleCase w2 =
                  KernelStatus.render titleCase w1) ∧
    emits (KernelStatus.trace w2) = S (emits (KernelStatus.trace w1)).
Proof.
  destruct (reached interactiveItem shell h tr events)
    as (w0 & w & mo & Hnew & Hrun & Hmo).
  destruct (onUpdateRequest_some interactiveItem w mo Hmo)
    as (w1 & m1 & ty1 & He1 & Hm1 & _ & Hty1 & Hcl1 & Hcw1 & Hex1).
  destruct (onUpdateRequest_some interactiveItem w1 m1 Hm1)
    as (w2 & m2 & ty2 & He2 & Hm2 & _ & Hty2 & Hcl2 & Hcw2 & Hex2).
  destruct (deliver_view interactiveItem KernelStatus.UpdateRequest w mo Hmo)
    as (w1' & m1' & k1 & He1' & Hm1' & Hview1 & _).
  cbn [KernelStatus.deliver] in He1'. rewrite He1 in He1'.
  injection He1' as <-. rewrite Hm1 in Hm1'. injection Hm1' as <-.
  destruct (deliver_view interactiveItem KernelStatus.UpdateRequest w1 m1 Hm1)
    as (w2' & m2' & k2 & He2' & Hm2' & Hview2 & _).
  cbn [KernelStatus.deliver] in He2'. rewrite He2 in He2'.
  injection He2' as <-. rewrite Hm2 in Hm2'. injection Hm2' as <-.
  cbn [event_ops perform_all foldl perform] in Hview1, Hview2.
  rewrite Hcw1, Hview1 in Hview2.
  destruct (set_session_again
              (KernelStatus._getFocusedSession (KernelStatus.currentWidget w))
              (KernelStatus.view mo w)) as (Hthis & Hobj & Htype).
  rewrite <- Hview2, <- Hview1 in Hthis, Hobj, Htype.
  simpl in Hthis, Hobj.
  rewrite (model_type_some w1 m1 Hm1) in Hty1. injection Hty1 as Hty1.
  rewrite (model_type_some w2 m2 Hm2) in Hty2. injection Hty2 as Hty2.
  assert (Hmodel : KernelStatus.model w2 = KernelStatus.model w1)
    by (rewrite Hm1, Hm2, Hthis; reflexivity).
  exists w0, w, w1, w2.
  split; [exact Hnew |]. split; [exact Hrun |]. split; [exact He1 |].
  split; [exact He2 |]. split; [exact Hmodel |].
  split; [| split; [exact Hobj |]; split; [exact Hcw2 |];
            split; [exact Hex2 |]; split ].
  - rewrite Hcl2, Hcl1, <- Hty2, <- Hty1, Htype.
    repeat case_decide; set_solver.
  - intros titleCase. unfold KernelStatus.render. rewrite Hmodel. reflexivity.
  - destruct (attach_event_emits interactiveItem KernelStatus.UpdateRequest
                w1 m1 _ Hm1 eq_refl) as (w2' & He2' & Hemits).
    cbn [KernelStatus.deliver] in He2'. rewrite He2 in He2'.
    injection He2' as <-. exact Hemits.
Qed.

(** X9.  The interactive class can stay on a widget that is not
    interactive.  When the notebook tracker reports that it has no current
    panel, the widget gets the class although its model has no session and
    no type, and a click then does nothing at all.  And a change of the
    shell's current widget leaves the classes as they are, whatever the new
    widget is. *)
Theorem interactive_without_notebook (interactiveItem : string)
    (shell : option Widget) (h : sid → IClientSession.t) (tr : list Effect)
    (events : list KernelStatus.Event) :
  ∃ w0 w,
    KernelStatus.new interactiveItem shell h tr = Ok w0 ∧
    KernelStatus.run interactiveItem events w0 = Ok w ∧
    (∃ w1,
       KernelStatus.deliver interactiveItem
         (KernelStatus.NotebookChanged None) w = Ok (tt, w1) ∧
       interactiveItem ∈ KernelStatus.classes w1 ∧
       KernelStatus.model_type w1 = Ok (None, w1) ∧
       KernelStatus.deliver interactiveItem KernelStatus.Click w1 =
         Ok (tt, w1)) ∧
    (∀ newValue, ∃ w1,
       KernelStatus.deliver interactiveItem
         (KernelStatus.MainAreaCurrentChanged newValue) w = Ok (tt, w1) ∧
       KernelStatus.classes w1 = KernelStatus.classes w).
Proof.
  destruct (reached interactiveItem shell h tr events)
    as (w0 & w & mo & Hnew & Hrun & Hmo).
  exists w0, w. split; [exact Hnew |]. split; [exact Hrun |]. split.
  - destruct (_onNotebookChange_some interactiveItem None w mo Hmo)
      as (w1 & m1 & He & Hm1 & Hs & Hcl & _).
    assert (Hty : KernelStatus.model_type w1 = Ok (None, w1)).
    { rewrite (model_type_some w1 m1 Hm1). unfold type; simpl.
      rewrite Hs. reflexivity. }
    exists w1. split; [exact He |]. split; [rewrite Hcl; set_solver |].
    split; [exact Hty |].
    destruct (_handleClick_some w1 m1 Hm1) as (ty & Hty' & Hclick).
    rewrite Hty in Hty'. injection Hty' as <-.
    cbn [KernelStatus.deliver]. rewrite Hclick.
    rewrite decide_False by discriminate. reflexivity.
  - intros newValue.
    destruct (MainAreaCurrentChanged_some interactiveItem newValue w mo Hmo)
      as (w1 & m1 & He & _ & _ & Hcl & _).
    exists w1. auto.
Qed.

(** X10.  The constructor does not fail.  It leaves a model whose session
    is the session of the shell's current widget when that is a notebook or
    a console panel, with the status of that session and its display name in
    lower case, and a model without session, "unknown" twice, otherwise.
    The widget has the interactive class exactly when the type of that
    session is "notebook", and no other class of this file; it has run no
    command, and its model has emitted "state changed" once. *)
Theorem constructed (interactiveItem : string) (shell : option Widget)
    (h : sid → IClientSession.t) (tr : list Effect) :
  ∃ w0 mo,
    KernelStatus.new interactiveItem shell h tr = Ok w0 ∧
    KernelStatus.model w0 = Some mo ∧
    mo = match shell with
         | Some (IsNotebookPanel p) =>
             let o := h (NotebookPanel.session p) in
             Model.mk (toLowerCase (IClientSession.kernelDisplayName o))
                      (IClientSession.status o) (Some (NotebookPanel.session p))
         | Some (IsConsolePanel p) =>
             let o := h (ConsolePanel.session p) in
             Model.mk (toLowerCase (IClientSession.kernelDisplayName o))
                      (IClientSession.status o) (Some (ConsolePanel.session p))
         | Some (OtherWidget _) => Model.mk "unknown" "unknown" None
         | None => Model.mk "unknown" "unknown" None
         end ∧
    (interactiveItem ∈ KernelStatus.classes w0 ↔
     ∃ s, _session mo = Some s ∧ IClientSession.type (h s) = "notebook") ∧
    (∀ c, c ∈ KernelStatus.classes w0 → c = interactiveItem) ∧
    KernelStatus.currentWidget w0 = shell ∧
    KernelStatus.executed w0 = [] ∧
    emits (KernelStatus.trace w0) = S (emits tr).
Proof.
  destruct (new_some interactiveItem shell h tr)
    as (w0 & Hnew & Hm0 & Hs & Ht & Hcw & Hex & Hcl).
  cbn zeta in *.
  set (σ := Model.new (KernelStatus._getFocusedSession shell) h tr) in *.
  exists w0, (this σ).
  split; [exact Hnew |]. split; [exact Hm0 |].
  assert (Hthis : this σ =
            match KernelStatus._getFocusedSession shell with
            | None => Model.mk "unknown" "unknown" None
            | Some s =>
                Model.mk (toLowerCase (IClientSession.kernelDisplayName (h s)))
                         (IClientSession.status (h s)) (Some s)
            end) by apply set_session_this.
  assert (Htype : type σ =
            match KernelStatus._getFocusedSession shell with
            | None => None
            | Some s => Some (IClientSession.type (h s))
            end).
  { unfold type. rewrite Hthis.
    destruct (KernelStatus._getFocusedSession shell) as [s|]; [| reflexivity].
    cbn [_session].
    pose proof (set_session_attributes (Some s) (mkState initial h tr) s)
      as (_ & _ & Hty). cbn zeta in Hty.
    unfold σ, Model.new. rewrite Hty. reflexivity. }
  assert (Hemits : emits (trace σ) = S (emits tr)) by apply set_session_emits.
  clearbody σ.
  split; [| split; [| split; [| split; [exact Hcw |]; split; [exact Hex |] ] ] ].
  - rewrite Hthis. destruct shell as [[p|p|n]|]; reflexivity.
  - rewrite Hcl, Htype, Hthis.
    destruct (KernelStatus._getFocusedSession shell) as [s|]; simpl.
    + destruct (decide (Some (IClientSession.type (h s)) = Some "notebook"))
        as [Hd|Hd].
      * split; [| intros _; set_solver]. intros _. exists s. split; congruence.
      * split; [set_solver |]. intros (s' & [= <-] & Hs'). congruence.
    + split; [set_solver |]. intros (s' & Hs' & _). discriminate.
  - intros c. rewrite Hcl. case_decide; set_solver.
  - rewrite Ht. exact Hemits.
Qed.

(** X11.  The handlers do not check the model that [render] checks.  On a
    widget whose model is null the three focus handlers, the update request
    and the click handler all fail with the error of a property access on
    null, and they fail before doing anything; [render] renders nothing. *)
Theorem null_model_raises (interactiveItem : string) (classes : gset string)
    (currentWidget : option Widget) (executed : list string)
    (h : sid → IClientSession.t) (tr : list Effect) :
  let w := KernelStatus.mk None classes currentWidget executed h tr in
  (∀ panel, KernelStatus._onNotebookChange interactiveItem panel w = TypeError) ∧
  (∀ panel, KernelStatus._onConsoleChange interactiveItem panel w = TypeError) ∧
  (∀ newValue, KernelStatus._onMainAreaCurrentChange newValue w = TypeError) ∧
  KernelStatus.onUpdateRequest interactiveItem w = TypeError ∧
  KernelStatus._handleClick w = TypeError ∧
  (∀ titleCase, KernelStatus.render titleCase w = None).
Proof. cbn zeta. repeat split; reflexivity. Qed.

(** ** The widget and the focus signals *)

Lemma shell_focus_same (w : KernelStatus.t) :
  KernelStatus.shell_focus (KernelStatus.currentWidget w) w = Ok (tt, w).
Proof. destruct w; reflexivity. Qed.

(** X12.  The constructor connects the widget's three handlers, each to its
    own signal, and leaves the listeners of other components as they were;
    from then on every focus event of the host reaches the handler: a signal
    that fires does to the widget what the handler does. *)
Theorem wired_by_constructor (interactiveItem : string) (opts : FocusSignals)
    (shell : option Widget) (h : sid → IClientSession.t) (tr : list Effect) :
  ∃ it,
    Wired.new interactiveItem opts shell h tr = Ok it ∧
    KernelStatus.new interactiveItem shell h tr = Ok (Wired.widget it) ∧
    OnNotebookChange ∈ notebookTracker_currentChanged (Wired.signals it) ∧
    OnConsoleChange ∈ consoleTracker_currentChanged (Wired.signals it) ∧
    OnMainAreaCurrentChange ∈ shell_currentChanged (Wired.signals it) ∧
    (∀ slot, slot ≠ OnNotebookChange →
       (slot ∈ notebookTracker_currentChanged (Wired.signals it) ↔
        slot ∈ notebookTracker_currentChanged opts)) ∧
    (∀ slot, slot ≠ OnConsoleChange →
       (slot ∈ consoleTracker_currentChanged (Wired.signals it) ↔
        slot ∈ consoleTracker_currentChanged opts)) ∧
    (∀ slot, slot ≠ OnMainAreaCurrentChange →
       (slot ∈ shell_currentChanged (Wired.signals it) ↔
        slot ∈ shell_currentChanged opts)) ∧
    (∀ e (w : KernelStatus.t),
       Wired.fire interactiveItem e (Wired.mk w (Wired.signals it)) =
       match KernelStatus.deliver interactiveItem e w with
       | Ok (_, w') => Ok (Wired.mk w' (Wired.signals it))
       | TypeError => TypeError
       end).
Proof.
  destruct (new_some interactiveItem shell h tr) as (w0 & Hnew & _).
  unfold Wired.new. rewrite Hnew. eexists. split; [reflexivity |].
  cbn [Wired.widget Wired.signals notebookTracker_currentChanged
       consoleTracker_currentChanged shell_currentChanged].
  split; [reflexivity |].
  split; [set_solver |]. split; [set_solver |]. split; [set_solver |].
  split; [set_solver |]. split; [set_solver |]. split; [set_solver |].
  intros e w. unfold Wired.fire.
  assert (Hreach : Wired.reaches e
            {| notebookTracker_currentChanged :=
                 notebookTracker_currentChanged opts ∪ {[ OnNotebookChange ]};
               consoleTracker_currentChanged :=
                 consoleTracker_currentChanged opts ∪ {[ OnConsoleChange ]};
               shell_currentChanged :=
                 shell_currentChanged opts ∪ {[ OnMainAreaCurrentChange ]} |}
            = true).
  { destruct e; simpl; try reflexivity; apply bool_decide_eq_true_2; set_solver. }
  cbn [Wired.signals]. rewrite Hreach. reflexivity.
Qed.

(** X13.  [dispose] takes the widget's three handlers off their signals and
    leaves the listeners of other components connected.  After it a change
    of the current notebook or of the current console does nothing to the
    widget, and a change of the shell's current widget changes nothing of it
    but what the shell then shows as current.  A second [dispose] finds
    nothing to disconnect. *)
Theorem unwired_by_dispose (interactiveItem : string)
    (super_dispose : KernelStatus.t → KernelStatus.t) (it : Wired.t) :
  let d := Wired.dispose super_dispose it in
  (OnNotebookChange ∉ notebookTracker_currentChanged (Wired.signals d)) ∧
  (OnConsoleChange ∉ consoleTracker_currentChanged (Wired.signals d)) ∧
  (OnMainAreaCurrentChange ∉ shell_currentChanged (Wired.signals d)) ∧
  (∀ slot, slot ≠ OnNotebookChange →
     (slot ∈ notebookTracker_currentChanged (Wired.signals d) ↔
      slot ∈ notebookTracker_currentChanged (Wired.signals it))) ∧
  (∀ slot, slot ≠ OnConsoleChange →
     (slot ∈ consoleTracker_currentChanged (Wired.signals d) ↔
      slot ∈ consoleTracker_currentChanged (Wired.signals it))) ∧
  (∀ slot, slot ≠ OnMainAreaCurrentChange →
     (slot ∈ shell_currentChanged (Wired.signals d) ↔
      slot ∈ shell_currentChanged (Wired.signals it))) ∧
  (∀ panel,
     Wired.fire interactiveItem (KernelStatus.NotebookChanged panel) d = Ok d) ∧
  (∀ panel,
     Wired.fire interactiveItem (KernelStatus.ConsoleChanged panel) d = Ok d) ∧
  (∀ newValue, ∃ d',
     Wired.fire interactiveItem
       (KernelStatus.MainAreaCurrentChanged newValue) d = Ok d' ∧
     KernelStatus.currentWidget (Wired.widget d') = newValue ∧
     KernelStatus.model (Wired.widget d') = KernelStatus.model (Wired.widget d) ∧
     KernelStatus.classes (Wired.widget d') =
       KernelStatus.classes (Wired.widget d) ∧
     KernelStatus.executed (Wired.widget d') =
       KernelStatus.executed (Wired.widget d) ∧
     KernelStatus.sessions (Wired.widget d') =
       KernelStatus.sessions (Wired.widget d) ∧
     KernelStatus.trace (Wired.widget d') = KernelStatus.trace (Wired.widget d) ∧
     Wired.signals d' = Wired.signals d) ∧
  Wired.signals (Wired.dispose super_dispose d) = Wired.signals d.
Proof.
  cbn zeta. unfold Wired.dispose.
  cbn [Wired.widget Wired.signals notebookTracker_currentChanged
       consoleTracker_currentChanged shell_currentChanged].
  split; [set_solver |]. split; [set_solver |]. split; [set_solver |].
  split; [set_solver |]. split; [set_solver |]. split; [set_solver |].
  split; [| split; [| split] ].
  - intros panel. unfold Wired.fire, Wired.reaches.
    cbn [Wired.widget Wired.signals notebookTracker_currentChanged shell_step].
    rewrite bool_decide_eq_false_2 by set_solver.
    rewrite shell_focus_same. reflexivity.
  - intros panel. unfold Wired.fire, Wired.reaches.
    cbn [Wired.widget Wired.signals consoleTracker_currentChanged shell_step].
    rewrite bool_decide_eq_false_2 by set_solver.
    rewrite shell_focus_same. reflexivity.
  - intros newValue. unfold Wired.fire, Wired.reaches.
    cbn [Wired.widget Wired.signals shell_currentChanged shell_step].
    rewrite bool_decide_eq_false_2 by set_solver.
    eexists. split; [reflexivity |]. repeat split; reflexivity.
  - f_equal; set_solver.
Qed.

(** X14.  A widget that is built and then disposed of leaves the three
    signals of the host exactly as it found them, when none of its handlers
    was connected before, as is the case for the new arrow functions of a
    new widget. *)
Theorem built_and_disposed (interactiveItem : string)
    (super_dispose : KernelStatus.t → KernelStatus.t) (opts : FocusSignals)
    (shell : option Widget) (h : sid → IClientSession.t) (tr : list Effect) :
  unwired opts →
  ∃ it,
    Wired.new interactiveItem opts shell h tr = Ok it ∧
    Wired.signals (Wired.dispose super_dispose it) = opts.
Proof.
  intros (Hnb & Hco & Hsh).
  destruct (new_some interactiveItem shell h tr) as (w0 & Hnew & _).
  unfold Wired.new. rewrite Hnew. eexists. split; [reflexivity |].
  destruct opts as [nb co sh]. unfold Wired.dispose. simpl in *.
  f_equal; set_solver.
Qed.

(** ** The label follows the attached session, and no other *)

(** X15.  In a widget built on a store where no slot of its model is
    connected yet, after any events: a status change of the session the
    model holds puts the new status in the model and leaves its name and
    session; a kernel change of that session puts there the status and the
    lower-cased name of the new kernel, or "unknown" twice when the kernel
    is gone; and a status change or a kernel change of any other session
    leaves the model as it is. *)
Theorem label_follows_attached_session (interactiveItem : string)
    (shell : option Widget) (h : sid → IClientSession.t)
    (events : list KernelStatus.Event) :
  fresh h →
  ∃ w0 w mo,
    KernelStatus.new interactiveItem shell h [] = Ok w0 ∧
    KernelStatus.run interactiveItem events w0 = Ok w ∧
    KernelStatus.model w = Some mo ∧
    (∀ s v, ∃ w' m',
       KernelStatus.deliver interactiveItem
         (KernelStatus.SessionStatusChanged s v) w = Ok (tt, w') ∧
       KernelStatus.model w' = Some m' ∧
       m' = if decide (_session mo = Some s)
            then Model.mk (_kernelName mo) v (_session mo)
            else mo) ∧
    (∀ s newValue displayName, ∃ w' m',
       KernelStatus.deliver interactiveItem
         (KernelStatus.SessionKernelChanged s newValue displayName) w =
         Ok (tt, w') ∧
       KernelStatus.model w' = Some m' ∧
       m' = if decide (_session mo = Some s)
            then match newValue with
                 | Some k =>
                     Model.mk (toLowerCase (Kernel.name (Kernel.model k)))
                              (Kernel.status k) (_session mo)
                 | None => Model.mk "unknown" "unknown" (_session mo)
                 end
            else mo).
Proof.
  intros Hfresh.
  destruct (reached_view interactiveItem shell h [] events)
    as (w0 & w & mo & k & Hnew & Hrun & Hmo & Hview & _).
  exists w0, w, mo. split; [exact Hnew |]. split; [exact Hrun |].
  split; [exact Hmo |].
  assert (Hinv : attached_only (KernelStatus.view mo w)).
  { rewrite Hview. apply attached_only_perform_all, attached_only_new, Hfresh. }
  destruct Hinv as (Hst & Hke & _).
  unfold session in Hst, Hke. simpl in Hst, Hke.
  split.
  - intros s v.
    destruct (deliver_view interactiveItem
                (KernelStatus.SessionStatusChanged s v) w mo Hmo)
      as (w' & m' & k' & He & Hm' & Hv & _).
    exists w', m'. split; [exact He |]. split; [exact Hm' |].
    cbn [event_ops perform_all foldl perform] in Hv.
    assert (Hthis : m' = this (exec (emit_statusChanged s v)
                                 (KernelStatus.view mo w)))
      by (rewrite <- Hv; reflexivity).
    rewrite Hthis. destruct (decide (_session mo = Some s)) as [Hs|Hs].
    + rewrite emit_statusChanged_connected by exact (proj2 (Hst s) Hs).
      reflexivity.
    + rewrite emit_statusChanged_not_connected
        by (intros Hin; exact (Hs (proj1 (Hst s) Hin))).
      reflexivity.
  - intros s nv dn.
    destruct (deliver_view interactiveItem
                (KernelStatus.SessionKernelChanged s nv dn) w mo Hmo)
      as (w' & m' & k' & He & Hm' & Hv & _).
    exists w', m'. split; [exact He |]. split; [exact Hm' |].
    cbn [event_ops perform_all foldl perform] in Hv.
    assert (Hthis : m' = this (exec (emit_kernelChanged s nv dn)
                                 (KernelStatus.view mo w)))
      by (rewrite <- Hv; reflexivity).
    rewrite Hthis. destruct (decide (_session mo = Some s)) as [Hs|Hs].
    + assert (Hin : OnKernelChanged ∈ IClientSession.kernelChanged
                      (sessions (KernelStatus.view mo w) s))
        by exact (proj2 (Hke s) Hs).
      destruct (emit_kernelChanged_connected _ s nv dn Hin) as [-> _].
      destruct nv; reflexivity.
    + assert (Hout : OnKernelChanged ∉ IClientSession.kernelChanged
                       (sessions (KernelStatus.view mo w) s))
        by (intros Hin; exact (Hs (proj1 (Hke s) Hin))).
      destruct (emit_kernelChanged_not_connected _ s nv dn Hout) as [-> _].
      reflexivity.
Qed.

End Properties.

(** * Runs *)

(** The properties above, applied, and the scenarios of the spec, run: on
    names in ASCII, where the runtime's [toLowerCase] is [ascii_strings]. *)
Section Runs.

#[local] Existing Instance ascii_strings.

Lemma one_session_observed_witness :
  fresh quiet_sessions ∧
  one_session_at_a_time (trace quiet_life) ∧
  session quiet_life = Some 2 ∧
  trace (exec (set_session (Some 3)) quiet_life) =
    trace quiet_life ++
    [Disconnect 2 StatusChanged OnKernelStatusChanged;
     Disconnect 2 KernelChanged OnKernelChanged;
     Connect 3 StatusChanged OnKernelStatusChanged;
     Connect 3 KernelChanged OnKernelChanged;
     StateChangedEmit] ∧
  ¬ observes (exec (set_session (Some 3)) quiet_life) 2 ∧
  trace (exec (emit_statusChanged 2 "busy")
           (exec (set_session (Some 3)) quiet_life)) =
    trace (exec (set_session (Some 3)) quiet_life).
Proof.
  assert (Hfresh : fresh quiet_sessions).
  { intros i. unfold quiet_sessions; simpl. split.
    - rewrite elem_of_singleton. discriminate.
    - apply not_elem_of_empty. }
  assert (Hcur : session quiet_life = Some 2) by (vm_compute; reflexivity).
  assert (Hne : 2 ≠ 3) by lia.
  destruct (one_session_observed quiet_sessions (Some 1) quiet_ops Hfresh)
    as (Hone & _ & Horder & Hquiet).
  destruct (Hquiet 2 3 Hne) as (Hnot & Hstatus & _).
  split; [exact Hfresh |]. split; [exact Hone |]. split; [exact Hcur |].
  split; [exact (Horder 2 3 Hcur) |]. split; [exact Hnot |].
  exact (proj2 (Hstatus "busy")).
Defined.

Lemma name_is_lower_case_witness :
  (∀ s, ascii_toLowerCase (toLowerCase s) = toLowerCase s) ∧
  ∃ w0 w mo,
    KernelStatus.new "interactive" (Some notebookA) quiet_sessions [] = Ok w0 ∧
    KernelStatus.run "interactive"
      [KernelStatus.SessionKernelChanged 1
         (Some {| Kernel.status := "idle";
                  Kernel.model := {| Kernel.name := "Python3" |} |})
         "Python 3"] w0 = Ok w ∧
    KernelStatus.model w = Some mo ∧
    ascii_toLowerCase (_kernelName mo) = _kernelName mo.
Proof.
  split; [exact ascii_toLowerCase_idem |].
  exact (name_is_lower_case "interactive" (Some notebookA) quiet_sessions []
           [KernelStatus.SessionKernelChanged 1
              (Some {| Kernel.status := "idle";
                       Kernel.model := {| Kernel.name := "Python3" |} |})
              "Python 3"]
           ascii_toLowerCase_idem).
Defined.

Lemma widget_one_session_witness :
  fresh quiet_sessions ∧
  ∃ w0 w mo,
    KernelStatus.new "interactive" (Some notebookA) quiet_sessions [] = Ok w0 ∧
    KernelStatus.run "interactive"
      [KernelStatus.MainAreaCurrentChanged (Some consoleB);
       KernelStatus.SessionStatusChanged 1 "busy"; KernelStatus.Click] w0 =
      Ok w ∧
    KernelStatus.model w = Some mo ∧
    one_session_at_a_time (KernelStatus.trace w) ∧
    (∀ i, observes (KernelStatus.view mo w) i ↔ _session mo = Some i).
Proof.
  assert (Hfresh : fresh quiet_sessions).
  { intros i. unfold quiet_sessions; simpl. split.
    - rewrite elem_of_singleton. discriminate.
    - apply not_elem_of_empty. }
  split; [exact Hfresh |].
  exact (widget_one_session "interactive" (Some notebookA) quiet_sessions
           [KernelStatus.MainAreaCurrentChanged (Some consoleB);
            KernelStatus.SessionStatusChanged 1 "busy"; KernelStatus.Click]
           Hfresh).
Defined.

Lemma unknown_without_session_witness :
  fresh quiet_sessions ∧
  ∃ w0 w mo,
    KernelStatus.new "interactive" (Some notebookA) quiet_sessions [] = Ok w0 ∧
    KernelStatus.run "interactive"
      [KernelStatus.MainAreaCurrentChanged (Some (OtherWidget 0));
       KernelStatus.SessionStatusChanged 1 "busy";
       KernelStatus.SessionKernelChanged 1 None "No Kernel!"] w0 = Ok w ∧
    KernelStatus.model w = Some mo ∧
    (_session mo = None →
     _kernelName mo = "unknown" ∧ _kernelStatus mo = "unknown" ∧
     ∀ titleCase : string → string,
       source <$> KernelStatus.render titleCase w =
       Some (titleCase "unknown" +:+ " | " +:+ titleCase "unknown")).
Proof.
  split; [exact fresh_quiet_sessions |].
  exact (unknown_without_session "interactive" (Some notebookA) quiet_sessions
           [KernelStatus.MainAreaCurrentChanged (Some (OtherWidget 0));
            KernelStatus.SessionStatusChanged 1 "busy";
            KernelStatus.SessionKernelChanged 1 None "No Kernel!"]
           fresh_quiet_sessions).
Defined.

Lemma built_and_disposed_witness :
  unwired quiet_signals ∧
  ∃ it,
    Wired.new "interactive" quiet_signals (Some notebookA) quiet_sessions [] =
      Ok it ∧
    Wired.signals (Wired.dispose (fun w => w) it) = quiet_signals.
Proof.
  assert (Hun : unwired quiet_signals).
  { unfold unwired, quiet_signals; simpl. repeat split; set_solver. }
  split; [exact Hun |].
  exact (built_and_disposed "interactive" (fun w => w) quiet_signals
           (Some notebookA) quiet_sessions [] Hun).
Defined.

Lemma label_follows_attached_session_witness :
  fresh quiet_sessions ∧
  ∃ w0 w mo,
    KernelStatus.new "interactive" (Some notebookA) quiet_sessions [] = Ok w0 ∧
    KernelStatus.run "interactive"
      [KernelStatus.MainAreaCurrentChanged (Some consoleB);
       KernelStatus.SessionStatusChanged 1 "busy"] w0 = Ok w ∧
    KernelStatus.model w = Some mo ∧
    (∀ s v, ∃ w' m',
       KernelStatus.deliver "interactive"
         (KernelStatus.SessionStatusChanged s v) w = Ok (tt, w') ∧
       KernelStatus.model w' = Some m' ∧
       m' = if decide (_session mo = Some s)
            then Model.mk (_kernelName mo) v (_session mo)
            else mo).
Proof.
  split; [exact fresh_quiet_sessions |].
  destruct (label_follows_attached_session "interactive" (Some notebookA)
              quiet_sessions
              [KernelStatus.MainAreaCurrentChanged (Some consoleB);
               KernelStatus.SessionStatusChanged 1 "busy"]
              fresh_quiet_sessions)
    as (w0 & w & mo & Hnew & Hrun & Hmo & Hstatus & _).
  exists w0, w, mo. auto.
Defined.

(** ** The scenarios of the spec, run *)

(** A notebook on "python3", idle, has the focus: the label and the class are
    there, and a click runs the command once. *)
Example notebook_focused :
  shown (scenario (Some notebookA) []) =
    Some (Some "Python3 | Idle", true, []) ∧
  shown (scenario (Some notebookA) [KernelStatus.Click]) =
    Some (Some "Python3 | Idle", true, ["notebook:change-kernel"]).
Proof. split; vm_compute; reflexivity. Qed.

(** The focus goes to a console: its session is shown, the class goes, and
    a click does nothing. *)
Example console_focused :
  shown (scenario (Some notebookA)
           [KernelStatus.ConsoleChanged (Some {| ConsolePanel.session := 2 |});
            KernelStatus.MainAreaCurrentChanged (Some consoleB);
            KernelStatus.UpdateRequest; KernelStatus.Click]) =
    Some (Some "Julia 1.0 | Busy", false, []).
Proof. vm_compute; reflexivity. Qed.

(** The focus goes to a plain editor: the model has no session. *)
Example editor_focused :
  shown (scenario (Some notebookA)
           [KernelStatus.MainAreaCurrentChanged (Some (OtherWidget 0));
            KernelStatus.UpdateRequest]) =
    Some (Some "Unknown | Unknown", false, []).
Proof. vm_compute; reflexivity. Qed.

(** The kernel of the focused notebook goes busy, then away. *)
Example kernel_gone :
  shown (scenario (Some notebookA)
           [KernelStatus.SessionStatusChanged 1 "busy"]) =
    Some (Some "Python3 | Busy", true, []) ∧
  shown (scenario (Some notebookA)
           [KernelStatus.SessionStatusChanged 1 "busy";
            KernelStatus.SessionKernelChanged 1 None "No Kernel!"]) =
    Some (Some "Unknown | Unknown", true, []).
Proof. split; vm_compute; reflexivity. Qed.

(** A session that is no longer attached changes its status: nothing shows. *)
Example detached_session_ignored :
  shown (scenario (Some notebookA)
           [KernelStatus.MainAreaCurrentChanged (Some consoleB);
            KernelStatus.SessionStatusChanged 1 "dead"]) =
    Some (Some "Julia 1.0 | Busy", true, []).
Proof. vm_compute; reflexivity. Qed.

End Runs.
